(** * Instagram Export Date Fixer: a shallow embedding of
      [instagram_date_fixer.py] and the properties of its pipeline.

    The development follows the source file top to bottom:

    - [parse_instagram_date]  (DateParser), on a model of CPython's
      [datetime.strptime] / [strftime] for the two formats the source uses;
    - [find_date_in_html], [find_images_in_html]  (RecordLocator and
      PathResolver), on a model of the BeautifulSoup node tree and of
      [pathlib.PurePosixPath];
    - [update_image_metadata]  (MetadataWriter), as a state-and-exception
      computation over a file store.

    Strings are Rocq [string]s read as sequences of code points below 256.
    Exceptions are the subclasses of Python's [Exception]. *)

From Stdlib Require Import String Ascii List Arith Lia ZArith Bool.
From stdpp Require Import base option list strings pretty gmap.

Open Scope string_scope.
Open Scope list_scope.
Open Scope Z_scope.

(* ===================================================================== *)
(** * Exceptions and results                                              *)
(* ===================================================================== *)

(** The exception classes the program can meet; all derive from
    [Exception], so [except Exception] catches each of them. *)
Inductive exn :=
| ValueError
| IndexError
| KeyError
| TypeError
| OverflowError
| OSError
| RuntimeError.

#[global] Instance exn_eq_dec : EqDecision exn.
Proof. solve_decision. Defined.

(** The outcome of a call: a value, or a raised exception. *)
Inductive res (A : Type) :=
| Ok (a : A)
| Raise (e : exn).
Arguments Ok {A} a.
Arguments Raise {A} e.

Definition res_bind {A B} (m : res A) (k : A → res B) : res B :=
  match m with
  | Ok a => k a
  | Raise e => Raise e
  end.

(* ===================================================================== *)
(** * Characters                                                          *)
(* ===================================================================== *)

Module Chars.

Definition code (c : ascii) : Z := Z.of_N (N_of_ascii c).

(** [\d] restricted to code points below 256: the ten ASCII digits. *)
Definition is_digit (c : ascii) : bool :=
  (48 <=? code c) && (code c <=? 57).

(** [\s] and [str.isspace] below 256. *)
Definition is_space (c : ascii) : bool :=
  let n := code c in
  ((9 <=? n) && (n <=? 13)) || ((28 <=? n) && (n <=? 32))
  || (n =? 133) || (n =? 160).

(** Lower-casing of the ASCII capitals, enough to decide a
    case-insensitive match against an ASCII pattern. *)
Definition lower (c : ascii) : ascii :=
  let n := code c in
  if (65 <=? n) && (n <=? 90) then ascii_of_N (Z.to_N (n + 32)) else c.

Fixpoint lower_str (s : string) : string :=
  match s with
  | EmptyString => EmptyString
  | String c s' => String (lower c) (lower_str s')
  end.

Definition digit_char (n : Z) : ascii := ascii_of_N (Z.to_N (48 + n)).

Definition digit_val (c : ascii) : Z := code c - 48.

End Chars.

(* ===================================================================== *)
(** * Built-ins                                                           *)
(* ===================================================================== *)

Module Py.

(** [l.index(x)]: the first position of [x]; [None] stands for the
    [ValueError] of an absent element. *)
Fixpoint index (x : string) (l : list string) : option nat :=
  match l with
  | [] => None
  | y :: l' => if String.eqb y x then Some 0%nat else S <$> index x l'
  end.

Fixpoint lstrip (s : string) : string :=
  match s with
  | EmptyString => EmptyString
  | String c s' => if Chars.is_space c then lstrip s' else s
  end.

Fixpoint rstrip (s : string) : string :=
  match s with
  | EmptyString => EmptyString
  | String c s' =>
      match rstrip s' with
      | EmptyString => if Chars.is_space c then EmptyString else String c EmptyString
      | r => String c r
      end
  end.

(** [s.strip()] *)
Definition strip (s : string) : string := rstrip (lstrip s).

(** [sep.join(l)] *)
Fixpoint join (sep : string) (l : list string) : string :=
  match l with
  | [] => EmptyString
  | [x] => x
  | x :: l' => x +:+ sep +:+ join sep l'
  end.

(** [s.split(sep)] for a one-character separator. *)
Fixpoint split (sep : ascii) (s : string) : list string :=
  match s with
  | EmptyString => [EmptyString]
  | String c s' =>
      if Ascii.eqb c sep then EmptyString :: split sep s'
      else match split sep s' with
           | w :: ws => String c w :: ws
           | [] => [String c EmptyString]
           end
  end.

(** [re.findall(r"\S+", s)]: the maximal runs of non-blank characters. *)
Fixpoint words (s : string) : list string :=
  match s with
  | EmptyString => []
  | String c s' =>
      if Chars.is_space c then words s'
      else match s' with
           | EmptyString => [String c EmptyString]
           | String c' _ =>
               if Chars.is_space c' then String c EmptyString :: words s'
               else match words s' with
                    | w :: ws => String c w :: ws
                    | [] => [String c EmptyString]
                    end
           end
  end.

(** truthiness of a [str] *)
Definition truthy (s : string) : bool :=
  match s with EmptyString => false | String _ _ => true end.

End Py.

(* ===================================================================== *)
(** * Regular expressions of [_strptime.TimeRE]                           *)
(* ===================================================================== *)

(** The fragment of [re] that [TimeRE.pattern] produces for the formats
    used here, compiled with [IGNORECASE].  [run] lists the matches at
    the start of the subject in the priority order of a backtracking
    matcher; [re.match] returns the first. *)
Module Re.

Inductive regex :=
| Eps
| Lit (c : ascii)
| Class (p : ascii → bool)
| Plus (p : ascii → bool)
| Seq (r1 r2 : regex)
| Alt (r1 r2 : regex)
| Group (name : string) (r : regex).

(** group dictionary, matched text, rest of the subject *)
Definition found : Type := list (string * string) * string * string.

(** [p+], greedy: the longest run first. *)
Fixpoint plus_matches (p : ascii → bool) (s : string) : list (string * string) :=
  match s with
  | String c s' =>
      if p c
      then map (λ mr, (String c mr.1, mr.2)) (plus_matches p s') ++ [(String c EmptyString, s')]
      else []
  | EmptyString => []
  end.

Fixpoint run (r : regex) (s : string) : list found :=
  match r with
  | Eps => [([], EmptyString, s)]
  | Lit c =>
      match s with
      | String a s' =>
          if Ascii.eqb (Chars.lower a) (Chars.lower c) then [([], String a EmptyString, s')] else []
      | EmptyString => []
      end
  | Class p =>
      match s with
      | String a s' => if p a then [([], String a EmptyString, s')] else []
      | EmptyString => []
      end
  | Plus p => map (λ mr, ([], mr.1, mr.2)) (plus_matches p s)
  | Seq r1 r2 =>
      flat_map (λ f1 : found,
        map (λ f2 : found, (f1.1.1 ++ f2.1.1, f1.1.2 +:+ f2.1.2, f2.2)) (run r2 f1.2))
        (run r1 s)
  | Alt r1 r2 => run r1 s ++ run r2 s
  | Group n r => map (λ f : found, ((n, f.1.2) :: f.1.1, f.1.2, f.2)) (run r s)
  end.

(** A literal word, character by character. *)
Fixpoint word (w : string) : regex :=
  match w with
  | EmptyString => Eps
  | String c w' => Seq (Lit c) (word w')
  end.

(** [a|b|...] *)
Fixpoint alts (rs : list regex) : regex :=
  match rs with
  | [] => Class (λ _, false)
  | [r] => r
  | r :: rs' => Alt r (alts rs')
  end.

Definition range (lo hi : Z) : regex :=
  Class (λ c, (lo <=? Chars.code c) && (Chars.code c <=? hi)).

Definition d := Class Chars.is_digit.
Definition ch (c : string) : regex :=
  match c with String a _ => Lit a | EmptyString => Eps end.

End Re.

(* ===================================================================== *)
(** * [datetime]                                                          *)
(* ===================================================================== *)

Module Datetime.

(** A naive [datetime.datetime] with [microsecond = 0] and no [tzinfo]. *)
Record datetime := mkdt {
  year : Z; month : Z; day : Z;
  hour : Z; minute : Z; second : Z
}.

#[global] Instance datetime_eq_dec : EqDecision datetime.
Proof. solve_decision. Defined.

Definition is_leap (y : Z) : bool :=
  (y mod 4 =? 0) && (negb (y mod 100 =? 0) || (y mod 400 =? 0)).

Definition days_in_month (y m : Z) : Z :=
  match m with
  | 2 => if is_leap y then 29 else 28
  | 4 | 6 | 9 | 11 => 30
  | _ => 31
  end.

(** The range checks of the constructor ([_check_date_fields],
    [_check_time_fields]). *)
Definition valid (y m d H M S : Z) : bool :=
  (1 <=? y) && (y <=? 9999) && (1 <=? m) && (m <=? 12)
  && (1 <=? d) && (d <=? days_in_month y m)
  && (0 <=? H) && (H <=? 23) && (0 <=? M) && (M <=? 59)
  && (0 <=? S) && (S <=? 59).

(** [datetime(y, m, d, H, M, S)] *)
Definition new (y m d H M S : Z) : res datetime :=
  if valid y m d H M S then Ok (mkdt y m d H M S) else Raise ValueError.

Definition pad2 (n : Z) : string :=
  String (Chars.digit_char (n / 10 mod 10)) (String (Chars.digit_char (n mod 10)) EmptyString).

Definition pad4 (n : Z) : string :=
  String (Chars.digit_char (n / 1000 mod 10))
    (String (Chars.digit_char (n / 100 mod 10)) (pad2 n)).

(** The decimal number of a year, without padding; the year of a
    [datetime] has one to four digits. *)
Definition year_text (n : Z) : string :=
  if n <? 10 then String (Chars.digit_char (n mod 10)) EmptyString
  else if n <? 100 then pad2 n
  else if n <? 1000 then String (Chars.digit_char (n / 100 mod 10)) (pad2 n)
  else pad4 n.

(** One [strftime] directive, as the C library writes it: [%Y] is the
    year as a decimal number and is not padded with zeros, so a year
    below 1000 takes fewer than four characters; the other fields are
    two digits wide. *)
Definition strftime_directive (dt : datetime) (k : ascii) : string :=
  if Ascii.eqb k "Y" then year_text (year dt)
  else if Ascii.eqb k "m" then pad2 (month dt)
  else if Ascii.eqb k "d" then pad2 (day dt)
  else if Ascii.eqb k "H" then pad2 (hour dt)
  else if Ascii.eqb k "M" then pad2 (minute dt)
  else if Ascii.eqb k "S" then pad2 (second dt)
  else if Ascii.eqb k "%" then "%"
  else String "%" (String k EmptyString).

(** [dt.strftime(fmt)] *)
Fixpoint strftime (dt : datetime) (fmt : string) : string :=
  match fmt with
  | EmptyString => EmptyString
  | String c rest =>
      if Ascii.eqb c "%" then
        match rest with
        | String k rest' => strftime_directive dt k +:+ strftime dt rest'
        | EmptyString => "%"
        end
      else String c (strftime dt rest)
  end.

(** [str(dt)], that is [dt.isoformat(sep=' ')]: the year on four digits,
    whatever [strftime] does. *)
Definition str (dt : datetime) : string :=
  pad4 (year dt) +:+ "-" +:+ pad2 (month dt) +:+ "-" +:+ pad2 (day dt) +:+ " "
  +:+ pad2 (hour dt) +:+ ":" +:+ pad2 (minute dt) +:+ ":" +:+ pad2 (second dt).

(** [str(x)] for [x] a datetime or [None] *)
Definition str_opt (o : option datetime) : string :=
  match o with Some dt => str dt | None => "None" end.

End Datetime.
Export Datetime(datetime, mkdt).

(* ===================================================================== *)
(** * [datetime.strptime]                                                 *)
(* ===================================================================== *)

Module Strptime.
Import Re.

(** [LocaleTime] of the C / English locale, lower-cased as the library
    stores it. *)
Definition a_month : list string :=
  [EmptyString; "jan"; "feb"; "mar"; "apr"; "may"; "jun";
   "jul"; "aug"; "sep"; "oct"; "nov"; "dec"].
Definition am_pm : list string := ["am"; "pm"].

(** [TimeRE.__seqToRE]: the alternatives are sorted by decreasing length
    with a stable sort; both tables hold words of one length, so the
    order is the table's. *)
Definition seqToRE (to_convert : list string) (directive : string) : regex :=
  Group directive (alts (map word to_convert)).

(** The entries of [TimeRE] for the directives of the two formats. *)
Definition directive (k : ascii) : option regex :=
  if Ascii.eqb k "d" then
    Some (Group "d" (alts [Seq (ch "3") (range 48 49); Seq (range 49 50) d;
                           Seq (ch "0") (range 49 57); range 49 57;
                           Seq (ch " ") (range 49 57)]))
  else if Ascii.eqb k "H" then
    Some (Group "H" (alts [Seq (ch "2") (range 48 51); Seq (range 48 49) d; d]))
  else if Ascii.eqb k "I" then
    Some (Group "I" (alts [Seq (ch "1") (range 48 50); Seq (ch "0") (range 49 57);
                           range 49 57]))
  else if Ascii.eqb k "m" then
    Some (Group "m" (alts [Seq (ch "1") (range 48 50); Seq (ch "0") (range 49 57);
                           range 49 57]))
  else if Ascii.eqb k "M" then
    Some (Group "M" (alts [Seq (range 48 53) d; d]))
  else if Ascii.eqb k "S" then
    Some (Group "S" (alts [Seq (ch "6") (range 48 49); Seq (range 48 53) d; d]))
  else if Ascii.eqb k "Y" then
    Some (Group "Y" (Seq d (Seq d (Seq d d))))
  else if Ascii.eqb k "b" then Some (seqToRE (tail a_month) "b")
  else if Ascii.eqb k "p" then Some (seqToRE am_pm "p")
  else if Ascii.eqb k "%" then Some (ch "%")
  else None.

Definition starts_with_space (s : string) : bool :=
  match s with String c _ => Chars.is_space c | EmptyString => false end.

(** [TimeRE.pattern]: a run of whitespace becomes [\s+], a directive its
    entry, any other character itself.  [None] is the library's
    "bad directive" / "stray %" error. *)
Fixpoint pattern (fmt : string) : option regex :=
  match fmt with
  | EmptyString => Some Eps
  | String c rest =>
      if Ascii.eqb c "%" then
        match rest with
        | String k rest' =>
            r ← directive k; r' ← pattern rest'; Some (Seq r r')
        | EmptyString => None
        end
      else if Chars.is_space c then
        if starts_with_space rest then pattern rest
        else r' ← pattern rest; Some (Seq (Plus Chars.is_space) r')
      else r' ← pattern rest; Some (Seq (Lit c) r')
  end.

(** [int(s)] on the text of a numeric group: ASCII digits, with the
    blank that the [%d] entry allows in front. *)
Definition int (s : string) : Z :=
  fold_left (λ acc c, if Chars.is_digit c then 10 * acc + Chars.digit_val c else acc)
    (list_ascii_of_string s) 0.

Definition get (k : string) (fd : list (string * string)) : option string :=
  snd <$> List.find (λ kv, String.eqb kv.1 k) fd.

(** The fields [_strptime] fills while it walks the group dictionary. *)
Record fields := mkf {
  f_year : option Z; f_month : Z; f_day : Z;
  f_hour : Z; f_minute : Z; f_second : Z
}.

Definition init : fields := mkf None 1 1 0 0 0.

(** One turn of [for group_key in found_dict.keys()]. *)
Definition step (fd : list (string * string)) (acc : res fields) (kv : string * string)
  : res fields :=
  res_bind acc (λ f,
    let k := kv.1 in
    let v := kv.2 in
    if String.eqb k "Y" then
      Ok (mkf (Some (int v)) (f_month f) (f_day f) (f_hour f) (f_minute f) (f_second f))
    else if String.eqb k "m" then
      Ok (mkf (f_year f) (int v) (f_day f) (f_hour f) (f_minute f) (f_second f))
    else if String.eqb k "b" then
      match Py.index (Chars.lower_str v) a_month with
      | Some i =>
          Ok (mkf (f_year f) (Z.of_nat i) (f_day f) (f_hour f) (f_minute f) (f_second f))
      | None => Raise ValueError
      end
    else if String.eqb k "d" then
      Ok (mkf (f_year f) (f_month f) (int v) (f_hour f) (f_minute f) (f_second f))
    else if String.eqb k "H" then
      Ok (mkf (f_year f) (f_month f) (f_day f) (int v) (f_minute f) (f_second f))
    else if String.eqb k "I" then
      let hour := int v in
      let ampm := Chars.lower_str (default EmptyString (get "p" fd)) in
      let hour' :=
        if String.eqb ampm EmptyString || String.eqb ampm "am"
        then (if hour =? 12 then 0 else hour)
        else if String.eqb ampm "pm"
             then (if hour =? 12 then hour else hour + 12)
             else hour in
      Ok (mkf (f_year f) (f_month f) (f_day f) hour' (f_minute f) (f_second f))
    else if String.eqb k "M" then
      Ok (mkf (f_year f) (f_month f) (f_day f) (f_hour f) (int v) (f_second f))
    else if String.eqb k "S" then
      Ok (mkf (f_year f) (f_month f) (f_day f) (f_hour f) (f_minute f) (int v))
    else Ok f).

(** [_strptime]: match the compiled format at the start of the data,
    refuse unconverted data, then convert the groups. *)
Definition _strptime (data_string fmt : string) : res fields :=
  match pattern fmt with
  | None => Raise ValueError
  | Some format_regex =>
      match run format_regex data_string with
      | [] => Raise ValueError
      | (found_dict, _, rest) :: _ =>
          match rest with
          | EmptyString => fold_left (step found_dict) found_dict (Ok init)
          | String _ _ => Raise ValueError
          end
      end
  end.

(** [datetime.strptime(data_string, fmt)] *)
Definition strptime (data_string fmt : string) : res datetime :=
  res_bind (_strptime data_string fmt) (λ f,
    Datetime.new (default 1900 (f_year f)) (f_month f) (f_day f)
                 (f_hour f) (f_minute f) (f_second f)).

End Strptime.

(* ===================================================================== *)
(** * DateParser: [parse_instagram_date]                                  *)
(* ===================================================================== *)

(** [try: return body  except ValueError: pass]  followed by [rest]. *)
Definition try_except_ValueError {A} (body : res A) (rest : res (option A))
  : res (option A) :=
  match body with
  | Ok a => Ok (Some a)
  | Raise ValueError => rest
  | Raise e => Raise e
  end.

Definition parse_instagram_date (date_str : string) : res (option datetime) :=
  try_except_ValueError (Strptime.strptime date_str "%Y:%m:%d %H:%M:%S")
    (try_except_ValueError (Strptime.strptime date_str "%b %d, %Y %I:%M %p")
       (Ok None)).

(* ===================================================================== *)
(** * The markup tree of BeautifulSoup                                    *)
(* ===================================================================== *)

(** The tree [BeautifulSoup(html_content, 'html.parser')] returns; the
    parser itself is an external collaborator, so the functions below
    take the tree.  Only text nodes that [get_text] collects are kept. *)
Module Bs4.

#[warnings="-register-all"] Inductive PageElement :=
| NavigableString (s : string)
| Tag (name : string) (attrs : list (string * string)) (contents : list PageElement).

(** [tag.get(key)] *)
Definition get (key : string) (e : PageElement) : option string :=
  match e with
  | Tag _ attrs _ => snd <$> List.find (λ kv, String.eqb kv.1 key) attrs
  | NavigableString _ => None
  end.

(** The value of the multi-valued attribute [class]: its list of tokens. *)
Definition classes (e : PageElement) : option (list string) :=
  Py.words <$> get "class" e.

(** Matching of [class_=c]: against each token, then against the tokens
    joined by one blank. *)
Definition class_matches (c : string) (e : PageElement) : bool :=
  match classes e with
  | Some cl => existsb (String.eqb c) cl || String.eqb (Py.join " " cl) c
  | None => false
  end.

Definition matches (name : string) (class_ : option string) (e : PageElement) : bool :=
  match e with
  | Tag n _ _ =>
      String.eqb n name && match class_ with Some c => class_matches c e | None => true end
  | NavigableString _ => false
  end.

(** [tag.descendants]: the nodes below [e] in document order. *)
Fixpoint descendants (e : PageElement) : list PageElement :=
  match e with
  | NavigableString _ => []
  | Tag _ _ cs => flat_map (λ c, c :: descendants c) cs
  end.

(** [e.find_all(name, class_=...)] *)
Definition find_all (name : string) (class_ : option string) (e : PageElement)
  : list PageElement :=
  List.filter (matches name class_) (descendants e).

(** [e.find(name, class_=...)] *)
Definition find (name : string) (class_ : option string) (e : PageElement)
  : option PageElement :=
  head (find_all name class_ e).

Definition text_of (e : PageElement) : option string :=
  match e with NavigableString s => Some s | Tag _ _ _ => None end.

(** [e.get_text(strip=True)]: the stripped, non-empty strings below [e],
    concatenated. *)
Definition get_text (e : PageElement) : string :=
  Py.join EmptyString
    (List.filter Py.truthy
       (map Py.strip (omap text_of (match e with
                                    | NavigableString _ => [e]
                                    | Tag _ _ _ => descendants e
                                    end)))).

End Bs4.
Export Bs4(PageElement, NavigableString, Tag).

(* ===================================================================== *)
(** * [pathlib] on POSIX                                                  *)
(* ===================================================================== *)

Module Pathlib.

(** A [PurePosixPath] is its tuple of [parts]. *)
Definition Path : Type := list string.

Fixpoint lstrip_slash (s : string) : string :=
  match s with
  | String c s' => if Ascii.eqb c "/" then lstrip_slash s' else s
  | EmptyString => EmptyString
  end.

(** The root of a path string: [/], or [//] for exactly two slashes. *)
Definition root_of (s : string) : string :=
  match s with
  | String c1 (String c2 (String c3 _)) =>
      if Ascii.eqb c1 "/" then
        if Ascii.eqb c2 "/" then (if Ascii.eqb c3 "/" then "/" else "//") else "/"
      else EmptyString
  | String c1 (String c2 EmptyString) =>
      if Ascii.eqb c1 "/" then (if Ascii.eqb c2 "/" then "//" else "/") else EmptyString
  | String c1 EmptyString => if Ascii.eqb c1 "/" then "/" else EmptyString
  | EmptyString => EmptyString
  end.

Definition keep (x : string) : bool := Py.truthy x && negb (String.eqb x ".").

(** [Path(s).parts] *)
Definition parts (s : string) : Path :=
  let names := List.filter keep (Py.split "/" (lstrip_slash s)) in
  match root_of s with
  | EmptyString => names
  | root => root :: names
  end.

Definition is_absolute (p : Path) : bool :=
  match p with
  | String c _ :: _ => Ascii.eqb c "/"
  | _ => false
  end.

(** [p / seg]: an absolute segment replaces what came before. *)
Definition joinpath (p : Path) (seg : string) : Path :=
  let q := parts seg in
  if is_absolute q then q else p ++ q.

(** [Path( *segments )] *)
Definition of_segments (segments : list string) : Path :=
  fold_left joinpath segments [].

(** [str(p)] *)
Definition str (p : Path) : string :=
  match p with
  | [] => "."
  | x :: names => if is_absolute p then x +:+ Py.join "/" names else Py.join "/" p
  end.

End Pathlib.

(* ===================================================================== *)
(** * Computations that print and may raise                               *)
(* ===================================================================== *)

(** The lines written to standard output so far, and the outcome. *)
Record io (A : Type) := IO { result : res A; output : list string }.
Arguments IO {A} result output.
Arguments result {A} i.
Arguments output {A} i.

#[global] Instance io_ret : MRet io := λ A a, IO (Ok a) [].
#[global] Instance io_bind : MBind io := λ A B k m,
  match result m with
  | Ok a => IO (result (k a)) (output m ++ output (k a))
  | Raise e => IO (Raise e) (output m)
  end.

Definition print (line : string) : io unit := IO (Ok tt) [line].

Definition lift {A} (r : res A) : io A := IO r [].

(** [if flag: body] *)
Definition when (flag : bool) (body : io unit) : io unit :=
  if flag then body else mret tt.

(* ===================================================================== *)
(** * RecordLocator: [find_date_in_html]                                  *)
(* ===================================================================== *)

Definition display_date_class : string := "_3-94 _a6-o".
Definition cell_class : string := "_a6-q".
Definition post_class : string := "pam _3-95 _2ph- _a6-g uiBoxWhite noborder".
Definition img_class : string := "_a6_o _3-96".

(** The two cells of a row as the source reads them: the label block of
    the first cell, and the value block one level deeper in the second. *)
Definition row_cells (row : PageElement) : option (PageElement * PageElement) :=
  match Bs4.find_all "td" None row with
  | c0 :: c1 :: _ => Some (c0, c1)
  | _ => None
  end.

Definition label_div_of (c0 : PageElement) : option PageElement :=
  Bs4.find "div" (Some cell_class) c0.

Definition value_div_of (c1 : PageElement) : option PageElement :=
  match Bs4.find "div" None c1 with
  | Some value_container => Bs4.find "div" (Some cell_class) value_container
  | None => None
  end.

(** The [for row in rows] loop of [find_date_in_html]; a [return] inside
    the loop ends it. *)
Fixpoint find_date_rows (debug : bool) (rows : list PageElement) : io (option datetime) :=
  match rows with
  | [] => mret None
  | row :: rows' =>
      match row_cells row with
      | Some (c0, c1) =>
          let label_div := label_div_of c0 in
          let value_div := value_div_of c1 in
          match label_div with
          | Some ld =>
              let label := Bs4.get_text ld in
              when debug
                (let value_text :=
                   match value_div with Some vd => Bs4.get_text vd | None => "NO VALUE" end in
                 print ("  Debug: Label='" +:+ label +:+ "', Value='" +:+ value_text +:+ "'"));;
              match value_div with
              | Some vd =>
                  if String.eqb label "Date taken" then
                    let value := Bs4.get_text vd in
                    if Py.truthy value then
                      date ← lift (parse_instagram_date value);
                      when debug
                        (print ("  Debug: Parsed date from table = " +:+ Datetime.str_opt date));;
                      mret date
                    else find_date_rows debug rows'
                  else find_date_rows debug rows'
              | None => find_date_rows debug rows'
              end
          | None => find_date_rows debug rows'
          end
      | None => find_date_rows debug rows'
      end
  end.

Definition find_date_in_html (soup : PageElement) (debug : bool) : io (option datetime) :=
  let date_div := Bs4.find "div" (Some display_date_class) soup in
  found ←
    match date_div with
    | Some dd =>
        let date_text := Bs4.get_text dd in
        when debug (print ("  Debug: Found display date div: '" +:+ date_text +:+ "'"));;
        date ← lift (parse_instagram_date date_text);
        match date with
        | Some d =>
            when debug (print ("  Debug: Parsed display date = " +:+ Datetime.str d));;
            mret (Some d)
        | None => mret None
        end
    | None => mret None
    end;
  match found with
  | Some d => mret (Some d)
  | None =>
      let rows := Bs4.find_all "tr" None soup in
      when debug
        (print ("  Debug: Found " +:+ pretty (length rows) +:+ " table rows"));;
      find_date_rows debug rows
  end.

(* ===================================================================== *)
(** * The file store                                                      *)
(* ===================================================================== *)

(** A regular file: its bytes and its access and modification times in
    epoch seconds.  The store maps path strings to files. *)
Record file := File { content : list Byte.byte; atime : Z; mtime : Z }.

Abbreviation store := (gmap string file).

(** [os.path.exists(p)]: whether the store holds the path; it answers
    [False] for every failure and never raises. *)
Definition path_exists (fs : store) (p : string) : bool :=
  bool_decide (is_Some (fs !! p)).

(** [Path(p).exists()]: it asks the operating system for the status of
    the path and takes only a missing file or directory for [False]; any
    other failure (a name that is too long, a directory that may not be
    searched) is raised as [OSError].  [stat_error] says for which paths
    the status call fails in that way. *)
Definition Path_exists (fs : store) (stat_error : string → bool) (p : string) : res bool :=
  if stat_error p then Raise OSError else Ok (path_exists fs p).

(* ===================================================================== *)
(** * RecordLocator and PathResolver: [find_images_in_html]               *)
(* ===================================================================== *)

#[global] Instance res_ret : MRet res := λ A a, Ok a.
#[global] Instance res_mbind : MBind res := λ A B k m, res_bind m k.

(** Lines 103-120: the [for row in rows] loop; [break] ends it with the
    outcome of the parse as the date. *)
Fixpoint post_table_date (rows : list PageElement) : res (option datetime) :=
  match rows with
  | [] => Ok None
  | row :: rows' =>
      match row_cells row with
      | Some (c0, c1) =>
          match label_div_of c0, value_div_of c1 with
          | Some ld, Some vd =>
              if String.eqb (Bs4.get_text ld) "Date taken" then
                let value := Bs4.get_text vd in
                if Py.truthy value then parse_instagram_date value
                else post_table_date rows'
              else post_table_date rows'
          | _, _ => post_table_date rows'
          end
      | None => post_table_date rows'
      end
  end.

(** Lines 95-99: the display date of a post. *)
Definition post_display_date (post : PageElement) : res (option datetime) :=
  match Bs4.find "div" (Some display_date_class) post with
  | Some date_div => parse_instagram_date (Bs4.get_text date_div)
  | None => Ok None
  end.

(** Lines 95-120: the date of a post; a [datetime] is always truthy, so
    [if not date] is [date is None]. *)
Definition post_date (post : PageElement) : res (option datetime) :=
  date ← post_display_date post;
  match date with
  | Some d => Ok (Some d)
  | None => post_table_date (Bs4.find_all "tr" None post)
  end.

Definition marker : string := "your_instagram_activity".

(** Lines 128-140: the export root and the joined path;
    [path_parts.index] raises [ValueError] when the marker is absent, and
    the handler of line 138 takes it.  An [OSError] of [full_path.exists()]
    is neither [ValueError] nor [IndexError]: it passes the handler and
    leaves the function. *)
Definition resolve_image (fs : store) (stat_error : string → bool)
    (html_file_path img_path : string) (debug : bool) : io (option string) :=
  let path_parts := Pathlib.parts html_file_path in
  match Py.index marker path_parts with
  | Some activity_idx =>
      let root_path := Pathlib.of_segments (take activity_idx path_parts) in
      let full_path := Pathlib.joinpath root_path img_path in
      found ← lift (Path_exists fs stat_error (Pathlib.str full_path));
      if found : bool then mret (Some (Pathlib.str full_path))
      else
        when debug (print ("  Warning: Image not found: " +:+ Pathlib.str full_path));;
        mret None
  | None =>
      when debug (print "  Warning: Could not determine root path");;
      mret None
  end.

(** Lines 123-124: the reference of the media element, when truthy. *)
Definition post_img_src (post : PageElement) : option string :=
  img_tag ← Bs4.find "img" (Some img_class) post;
  src ← Bs4.get "src" img_tag;
  if Py.truthy src then Some src else None.

(** The body of [for post in posts]: what the post appends. *)
Definition post_records (fs : store) (stat_error : string → bool)
    (html_file_path : string) (debug : bool) (post : PageElement)
  : io (list (string * datetime)) :=
  date ← lift (post_date post);
  match post_img_src post, date with
  | Some img_path, Some d =>
      full_path ← resolve_image fs stat_error html_file_path img_path debug;
      match full_path with
      | Some p => mret [(p, d)]
      | None => mret []
      end
  | _, _ => mret []
  end.

Fixpoint for_posts (fs : store) (stat_error : string → bool)
    (html_file_path : string) (debug : bool)
    (posts : list PageElement) (images_with_dates : list (string * datetime))
  : io (list (string * datetime)) :=
  match posts with
  | [] => mret images_with_dates
  | post :: posts' =>
      new ← post_records fs stat_error html_file_path debug post;
      for_posts fs stat_error html_file_path debug posts' (images_with_dates ++ new)
  end.

Definition find_images_in_html (fs : store) (stat_error : string → bool)
    (soup : PageElement) (html_file_path : string) (debug : bool)
  : io (list (string * datetime)) :=
  let posts := Bs4.find_all "div" (Some post_class) soup in
  for_posts fs stat_error html_file_path debug posts [].

(* ===================================================================== *)
(** * The collaborators of MetadataWriter                                 *)
(* ===================================================================== *)

(** An EXIF dictionary of [piexif]: group name to tag to value. *)
Abbreviation exif_dict := (gmap string (gmap Z string)).

(** [piexif.ImageIFD.DateTime], [piexif.ExifIFD.DateTimeOriginal],
    [piexif.ExifIFD.DateTimeDigitized] *)
Definition ImageIFD_DateTime : Z := 306.
Definition ExifIFD_DateTimeOriginal : Z := 36867.
Definition ExifIFD_DateTimeDigitized : Z := 36868.

(** What the image codec, the metadata library and the operating system
    do during one call.  The codec functions are arbitrary; each system
    call may fail with an exception.  [copy2_fault] and [save_leftover]
    say what a failed copy leaves at the destination and what an aborted
    save leaves in the target ([None]: nothing was touched).  [time_min]
    and [time_max] bound the times the file system can record. *)
Record world := World {
  image : Type;
  Image_open : list Byte.byte → res image;
  piexif_load : list Byte.byte → res exif_dict;
  piexif_dump : exif_dict → res (list Byte.byte);
  Image_save : image → list Byte.byte → Z → res (list Byte.byte);
  save_leftover : option (list Byte.byte);
  timestamp : datetime → res Z;
  clock : Z;
  copy2_fault : option (exn * option file);
  utime_fault : option exn;
  remove_fault : option exn;
  move_fault : option exn;
  exn_str : exn → string;
  time_min : Z;
  time_max : Z
}.

(** The state of a call: the store and the lines printed. *)
Record state := State { files : store; stdout : list string }.

(** A command runs on a state and ends with a value or an exception. *)
Definition cmd (A : Type) : Type := state → res A * state.

#[global] Instance cmd_ret : MRet cmd := λ A a s, (Ok a, s).
#[global] Instance cmd_bind : MBind cmd := λ A B k m s,
  match m s with
  | (Ok a, s') => k a s'
  | (Raise e, s') => (Raise e, s')
  end.

Definition cmd_lift {A} (r : res A) : cmd A := λ s, (r, s).

(** [try: body  except Exception as e: handler(e)] *)
Definition try_except {A} (body : cmd A) (handler : exn → cmd A) : cmd A := λ s,
  match body s with
  | (Ok a, s') => (Ok a, s')
  | (Raise e, s') => handler e s'
  end.

Definition cmd_print (line : string) : cmd unit := λ s,
  (Ok tt, State (files s) (stdout s ++ [line])).

Definition os_path_exists (p : string) : cmd bool := λ s,
  (Ok (path_exists (files s) p), s).

Definition read_bytes (p : string) : cmd (list Byte.byte) := λ s,
  match files s !! p with
  | Some f => (Ok (content f), s)
  | None => (Raise OSError, s)
  end.

(** [shutil.copy2(src, dst)]: bytes and times. *)
Definition shutil_copy2 (w : world) (src dst : string) : cmd unit := λ s,
  match copy2_fault w with
  | Some (e, partial) =>
      (Raise e, match partial with
                | Some f => State (<[dst := f]> (files s)) (stdout s)
                | None => s
                end)
  | None =>
      match files s !! src with
      | Some f => (Ok tt, State (<[dst := f]> (files s)) (stdout s))
      | None => (Raise OSError, s)
      end
  end.

(** [img.save(p, exif=exif_bytes, quality=q)] *)
Definition img_save (w : world) (img : image w) (p : string)
    (exif_bytes : list Byte.byte) (q : Z) : cmd unit := λ s,
  let a := match files s !! p with Some f => atime f | None => clock w end in
  match Image_save w img exif_bytes q with
  | Ok bytes => (Ok tt, State (<[p := File bytes a (clock w)]> (files s)) (stdout s))
  | Raise e =>
      (Raise e, match save_leftover w with
                | Some bytes => State (<[p := File bytes a (clock w)]> (files s)) (stdout s)
                | None => s
                end)
  end.

(** The time the file system records for a requested time: a time
    outside its range is not refused but brought to the nearest bound. *)
Definition recorded_time (w : world) (t : Z) : Z :=
  Z.max (time_min w) (Z.min (time_max w) t).

(** [os.utime(p, (a, m))]: times out of range do not make the call fail;
    the file carries what the file system records for them. *)
Definition os_utime (w : world) (p : string) (a m : Z) : cmd unit := λ s,
  match utime_fault w with
  | Some e => (Raise e, s)
  | None =>
      match files s !! p with
      | Some f =>
          (Ok tt, State (<[p := File (content f) (recorded_time w a) (recorded_time w m)]>
                           (files s)) (stdout s))
      | None => (Raise OSError, s)
      end
  end.

(** [os.remove(p)] *)
Definition os_remove (w : world) (p : string) : cmd unit := λ s,
  match remove_fault w with
  | Some e => (Raise e, s)
  | None =>
      match files s !! p with
      | Some _ => (Ok tt, State (delete p (files s)) (stdout s))
      | None => (Raise OSError, s)
      end
  end.

(** [shutil.move(src, dst)]: a rename over the destination. *)
Definition shutil_move (w : world) (src dst : string) : cmd unit := λ s,
  match move_fault w with
  | Some e => (Raise e, s)
  | None =>
      match files s !! src with
      | Some f => (Ok tt, State (<[dst := f]> (delete src (files s))) (stdout s))
      | None => (Raise OSError, s)
      end
  end.

(** [d[group][tag] = value]; a missing group is a [KeyError]. *)
Definition exif_set (d : exif_dict) (group : string) (tag : Z) (value : string)
  : res exif_dict :=
  match d !! group with
  | Some g => Ok (<[group := <[tag := value]> g]> d)
  | None => Raise KeyError
  end.

Definition empty_exif : exif_dict :=
  <["0th" := ∅]> (<["Exif" := ∅]> (<["GPS" := ∅]> (<["1st" := ∅]> ∅))).

(** [os.path.basename(p)] *)
Definition basename (p : string) : string :=
  default EmptyString (last (Py.split "/" p)).

(* ===================================================================== *)
(** * MetadataWriter: [update_image_metadata]                             *)
(* ===================================================================== *)

(** Lines 151-186, the body of the [try]. *)
Definition update_body (w : world) (image_path backup_path : string)
    (date_taken : datetime) : cmd bool :=
  shutil_copy2 w image_path backup_path;;
  img ← (bytes ← read_bytes image_path; cmd_lift (Image_open w bytes));
  let exif_date := Datetime.strftime date_taken "%Y:%m:%d %H:%M:%S" in
  exif_dict ← try_except (bytes ← read_bytes image_path; cmd_lift (piexif_load w bytes))
                         (λ _, mret empty_exif);
  exif_dict ← cmd_lift (exif_set exif_dict "0th" ImageIFD_DateTime exif_date);
  exif_dict ← cmd_lift (exif_set exif_dict "Exif" ExifIFD_DateTimeOriginal exif_date);
  exif_dict ← cmd_lift (exif_set exif_dict "Exif" ExifIFD_DateTimeDigitized exif_date);
  exif_bytes ← cmd_lift (piexif_dump w exif_dict);
  img_save w img image_path exif_bytes 95;;
  ts ← cmd_lift (timestamp w date_taken);
  os_utime w image_path ts ts;;
  os_remove w backup_path;;
  cmd_print ("  ✓ Updated: " +:+ basename image_path +:+ " -> " +:+ Datetime.str date_taken);;
  mret true.

(** Lines 188-193, the handler. *)
Definition update_handler (w : world) (image_path backup_path : string) (e : exn)
  : cmd bool :=
  cmd_print ("  Error updating " +:+ image_path +:+ ": " +:+ exn_str w e);;
  has_backup ← os_path_exists backup_path;
  (if has_backup : bool then shutil_move w backup_path image_path else mret tt);;
  mret false.

Definition update_image_metadata (w : world) (image_path : string)
    (date_taken : datetime) : cmd bool :=
  present ← os_path_exists image_path;
  if negb present then
    cmd_print ("  Error: Image not found: " +:+ image_path);;
    mret false
  else
    let backup_path := image_path +:+ ".backup" in
    try_except (update_body w image_path backup_path date_taken)
               (update_handler w image_path backup_path).

(* ===================================================================== *)
(** * More of [pathlib]                                                   *)
(* ===================================================================== *)

Module PathlibMore.

(** [p.name]: the last part, unless the path is empty or only a root. *)
Definition name (p : Pathlib.Path) : string :=
  match p with
  | [] => EmptyString
  | [x] => if Pathlib.is_absolute p then EmptyString else x
  | _ => default EmptyString (last p)
  end.

(** [s.rfind('.')] *)
Fixpoint rfind_dot (s : string) : option nat :=
  match s with
  | EmptyString => None
  | String c s' =>
      match rfind_dot s' with
      | Some i => Some (S i)
      | None => if Ascii.eqb c "." then Some 0%nat else None
      end
  end.

(** [p.suffix]: from the last dot of the name, when that dot is neither
    the first nor the last character. *)
Definition suffix (p : Pathlib.Path) : string :=
  let n := name p in
  match rfind_dot n with
  | Some i =>
      if (0 <? i)%nat && (i <? String.length n - 1)%nat
      then String.substring i (String.length n - i) n
      else EmptyString
  | None => EmptyString
  end.

(** [p.parent]: the path without its last part; a root or the empty path
    is its own parent. *)
Definition parent (p : Pathlib.Path) : Pathlib.Path :=
  match p with
  | [] => []
  | [x] => if Pathlib.is_absolute p then p else []
  | _ => removelast p
  end.

End PathlibMore.

(* ===================================================================== *)
(** * Orchestrator: [process_html_file]                                   *)
(* ===================================================================== *)

(** What reading and parsing a document does: the decoding of its bytes
    as UTF-8, which may raise, and the markup parser, which is an
    external collaborator; [exn_text] is [str(e)]. *)
Record reader := Reader {
  decode_utf8 : list Byte.byte → res string;
  BeautifulSoup : string → PageElement;
  exn_text : exn → string
}.

(** [with open(p, 'r', encoding='utf-8') as f: f.read()] *)
Definition open_read (rd : reader) (p : string) : cmd string := λ s,
  match files s !! p with
  | Some f => (decode_utf8 rd (content f), s)
  | None => (Raise OSError, s)
  end.

(** A printing computation that reads the store, run as a command. *)
Definition cmd_of_io {A} (m : store → io A) : cmd A := λ s,
  (result (m (files s)), State (files s) (stdout s ++ output (m (files s)))).

Definition newline : string := String "010" EmptyString.

(** Lines 213-216: the [for image_path, date_taken in images_with_dates]
    loop; every call has its own world of collaborator outcomes. *)
Fixpoint update_each (worlds : string → world)
    (images_with_dates : list (string * datetime)) (success_count : Z) : cmd Z :=
  match images_with_dates with
  | [] => mret success_count
  | (image_path, date_taken) :: rest =>
      updated ← update_image_metadata (worlds image_path) image_path date_taken;
      update_each worlds rest
        (if updated : bool then success_count + 1 else success_count)
  end.

(** Lines 199-218, the body of the [try]. *)
Definition process_body (rd : reader) (worlds : string → world)
    (stat_error : string → bool) (html_file_path : string) (debug : bool) : cmd Z :=
  html_content ← open_read rd html_file_path;
  images_with_dates ←
    cmd_of_io (λ fs, find_images_in_html fs stat_error (BeautifulSoup rd html_content)
                       html_file_path debug);
  match images_with_dates with
  | [] =>
      cmd_print "  Warning: No images with dates found in HTML";;
      mret 0
  | _ :: _ =>
      cmd_print ("  Found " +:+ pretty (length images_with_dates) +:+ " image(s)");;
      update_each worlds images_with_dates 0
  end.

Definition process_html_file (rd : reader) (worlds : string → world)
    (stat_error : string → bool) (html_file_path export_root : string) (debug : bool)
  : cmd Z :=
  cmd_print (newline +:+ "Processing: " +:+ html_file_path);;
  try_except (process_body rd worlds stat_error html_file_path debug)
             (λ e, cmd_print ("  Error processing file: " +:+ exn_text rd e);;
                   mret 0).

(* ===================================================================== *)
(** * Orchestrator: [main]                                                *)
(* ===================================================================== *)

(** The parsed command line. *)
Record arguments := Args { arg_path : string; arg_recursive : bool; arg_debug : bool }.

(** What the operating system says about directories, which the store
    does not hold: [Path.is_dir], [str(Path.resolve())] and the listing
    [Path.glob] gives for a pattern, in its order. *)
Record directories := Directories {
  is_dir : string → bool;
  resolve : string → string;
  glob : string → string → list string
}.

(** Lines 281-286: the [for html_file in html_files] loop. *)
Fixpoint process_each (rd : reader) (worlds : string → world)
    (stat_error : string → bool)
    (html_files : list string) (export_root : string) (debug : bool)
    (success_count total_images : Z) : cmd (Z * Z) :=
  match html_files with
  | [] => mret (success_count, total_images)
  | html_file :: rest =>
      count ← process_html_file rd worlds stat_error html_file export_root debug;
      process_each rd worlds stat_error rest export_root debug
        (success_count + count) (total_images + count)
  end.

(** Lines 278-289: what [main] does with a non-empty list of documents. *)
Definition main_run (rd : reader) (worlds : string → world)
    (stat_error : string → bool)
    (html_files : list string) (export_root : string) (debug : bool) : cmd unit :=
  cmd_print ("Found " +:+ pretty (length html_files) +:+ " HTML file(s)");;
  counts ← process_each rd worlds stat_error html_files export_root debug 0 0;
  cmd_print (newline +:+ string_of_list_ascii (repeat "="%char 50));;
  cmd_print ("Completed: " +:+ pretty counts.1 +:+ " images updated successfully from "
             +:+ pretty (length html_files) +:+ " HTML file(s)").

(** Lines 248-276, then [main_run].  The status calls on the path of the
    command line are answered by the store and by [dirs]; [stat_error] is
    handed on to the documents, for the media paths of line 134. *)
Definition main (rd : reader) (worlds : string → world)
    (stat_error : string → bool) (dirs : directories) (args : arguments) : cmd unit :=
  let path := Pathlib.parts (arg_path args) in
  let path_str := Pathlib.str path in
  fs ← (λ s, (Ok (files s), s));
  let path_is_dir := is_dir dirs path_str in
  let path_is_file := path_exists fs path_str && negb path_is_dir in
  if negb (path_is_dir || path_is_file) then
    cmd_print ("Error: Path does not exist: " +:+ path_str)
  else
    let export_root :=
      resolve dirs (Pathlib.str (if path_is_dir then path else PathlibMore.parent path)) in
    (if arg_debug args then cmd_print ("Export root: " +:+ export_root) else mret tt);;
    if path_is_file then
      if String.eqb (Chars.lower_str (PathlibMore.suffix path)) ".html" then
        main_run rd worlds stat_error [path_str] export_root (arg_debug args)
      else cmd_print "Error: File must be an HTML file"
    else
      let pattern := if arg_recursive args then "**/*.html" else "*.html" in
      match glob dirs path_str pattern with
      | [] => cmd_print ("No HTML files found in: " +:+ path_str)
      | html_files => main_run rd worlds stat_error html_files export_root (arg_debug args)
      end.

(* ===================================================================== *)
(** * Vocabulary of the statements                                        *)
(* ===================================================================== *)

(** The value of a decimal digit. *)
Definition is_digit_value (n : Z) : Prop := 0 ≤ n ≤ 9.

(** [f] is the match [re.match] returns for [r] on [s]. *)
Definition first_match (r : Re.regex) (s : string) (f : Re.found) : Prop :=
  ∃ t, Re.run r s = f :: t.

(** The entry of a directive the two formats use. *)
Definition entry (k : ascii) : Re.regex := default Re.Eps (Strptime.directive k).

(** The two-character and four-character texts of given digits. *)
Definition two (a b : Z) : string :=
  String (Chars.digit_char a) (String (Chars.digit_char b) EmptyString).

Definition four (a b c e : Z) : string :=
  String (Chars.digit_char a) (String (Chars.digit_char b) (two c e)).

(** The format of lines 20 and 159. *)
Definition exif_format : string := "%Y:%m:%d %H:%M:%S".

(** A text [YYYY:MM:DD HH:MM:SS] given by its fourteen digits. *)
Definition machine_text (y1 y2 y3 y4 mo1 mo2 d1 d2 h1 h2 mi1 mi2 s1 s2 : Z) : string :=
  four y1 y2 y3 y4 +:+ ":" +:+ two mo1 mo2 +:+ ":" +:+ two d1 d2 +:+ " "
  +:+ two h1 h2 +:+ ":" +:+ two mi1 mi2 +:+ ":" +:+ two s1 s2.

(** The numbers that two and four digits write. *)
Definition number2 (a b : Z) : Z := 10 * a + b.
Definition number4 (a b c e : Z) : Z := 1000 * a + 100 * b + 10 * c + e.


(** The stripped text of the label block and of the value block of a
    row, when the row has two cells and the block is there. *)
Definition row_label (row : PageElement) : option string :=
  match row_cells row with
  | Some (c0, _) => Bs4.get_text <$> label_div_of c0
  | None => None
  end.

Definition row_value (row : PageElement) : option string :=
  match row_cells row with
  | Some (_, c1) => Bs4.get_text <$> value_div_of c1
  | None => None
  end.

(** The row is labeled exactly [Date taken] and carries the non-empty
    text [v] in its value block. *)
Definition supplies_date (row : PageElement) (v : string) : Prop :=
  row_label row = Some "Date taken" ∧ row_value row = Some v ∧ v ≠ EmptyString.

(** The path a media reference resolves to, or the exception of the
    existence check, without the printing. *)
Definition resolved_path (fs : store) (stat_error : string → bool)
    (html_file_path img_path : string) : res (option string) :=
  match Py.index marker (Pathlib.parts html_file_path) with
  | Some i =>
      let full_path :=
        Pathlib.str (Pathlib.joinpath
                       (Pathlib.of_segments (take i (Pathlib.parts html_file_path)))
                       img_path) in
      found ← Path_exists fs stat_error full_path;
      Ok (if found : bool then Some full_path else None)
  | None => Ok None
  end.

(** The records one post contributes, or the exception it ends with,
    without the printing. *)
Definition contribution (fs : store) (stat_error : string → bool)
    (html_file_path : string) (post : PageElement) : res (list (string * datetime)) :=
  match post_img_src post, post_date post with
  | Some img_path, Ok (Some d) =>
      full_path ← resolved_path fs stat_error html_file_path img_path;
      Ok (match full_path with Some p => [(p, d)] | None => [] end)
  | _, _ => Ok []
  end.

(** The records a list of posts contributes, in order; the first
    exception ends the run. *)
Fixpoint contributions (fs : store) (stat_error : string → bool)
    (html_file_path : string) (posts : list PageElement)
  : res (list (list (string * datetime))) :=
  match posts with
  | [] => Ok []
  | post :: posts' =>
      new ← contribution fs stat_error html_file_path post;
      rest ← contributions fs stat_error html_file_path posts';
      Ok (new :: rest)
  end.

(** No status call fails. *)
Definition no_stat_error : string → bool := λ _, false.




(** The same world, in which removing the backup does not fail. *)
Definition clear_remove_fault (w : world) : world :=
  World (image w) (Image_open w) (piexif_load w) (piexif_dump w) (Image_save w)
        (save_leftover w) (timestamp w) (clock w) (copy2_fault w) (utime_fault w)
        None (move_fault w) (exn_str w) (time_min w) (time_max w).

(** The same world, in which a failure to decode the existing EXIF block
    is replaced by the empty block. *)
Definition absorb_exif_load_error (w : world) : world :=
  World (image w) (Image_open w)
        (λ bytes, match piexif_load w bytes with
                  | Ok d => Ok d
                  | Raise _ => Ok empty_exif
                  end)
        (piexif_dump w) (Image_save w)
        (save_leftover w) (timestamp w) (clock w) (copy2_fault w) (utime_fault w)
        (remove_fault w) (move_fault w) (exn_str w) (time_min w) (time_max w).

(** The tri-state outcome of the specification's data model; the source
    returns a boolean. *)
Inductive UpdateResult := Success | Skipped | Failed.

(** The outcome the data model of the specification assigns to a call:
    [Skipped] when the target is missing at write time, [Failed] when a
    step of the update raised, [Success] otherwise. *)
Definition spec_outcome (w : world) (image_path : string) (date_taken : datetime)
    (s : state) : UpdateResult :=
  match files s !! image_path with
  | None => Skipped
  | Some _ =>
      match (update_body w image_path (image_path +:+ ".backup") date_taken s).1 with
      | Ok _ => Success
      | Raise _ => Failed
      end
  end.

(** The statement that an exception raised while the existing EXIF block
    is loaded, after the backup copy was made, ends in a restored target
    and a [False] return. *)
Definition exif_load_failure_restores : Prop :=
  ∀ w image_path date_taken s f e,
    files s !! image_path = Some f →
    copy2_fault w = None →
    piexif_load w (content f) = Raise e →
    (update_image_metadata w image_path date_taken s).1 = Ok false
    ∧ files (update_image_metadata w image_path date_taken s).2 !! image_path = Some f.

(** The statement that a caller can tell the three outcomes apart from
    what the call returns. *)
Definition tri_state_distinguishable : Prop :=
  ∃ classify : bool → UpdateResult,
    ∀ w image_path date_taken s b,
      (update_image_metadata w image_path date_taken s).1 = Ok b →
      classify b = spec_outcome w image_path date_taken s.

(** A world whose encoder fails, and two stores: one with the target and
    one without. *)
Definition failing_save : world :=
  World unit (λ _, Ok tt) (λ _, Raise ValueError) (λ _, Ok [])
        (λ _ _ _, Raise OSError) (Some []) (λ _, Ok 1615804200) 1700000000
        None None None None (λ _, "cannot write mode") (-2147483648) 17179869183.

Definition sample_file : file :=
  File [Byte.xff; Byte.xd8; Byte.xff; Byte.xd9] 1600000000 1600000000.
Definition store_with_target : state := State {[ "photo.jpg" := sample_file ]} [].
Definition store_without_target : state := State ∅ [].
Definition sample_date : datetime := mkdt 2021 3 15 10 30 0.

(** A world in which the existing EXIF block cannot be decoded and every
    other step succeeds. *)
Definition unreadable_exif : world :=
  World unit (λ _, Ok tt) (λ _, Raise ValueError) (λ _, Ok [Byte.x45; Byte.x78])
        (λ _ _ _, Ok [Byte.xff; Byte.xd8; Byte.xff; Byte.xe1; Byte.xff; Byte.xd9]) None
        (λ _, Ok 1615804200) 1700000000
        None None None None (λ _, "invalid EXIF") (-2147483648) 17179869183.

(** A world in which every step succeeds but the removal of the backup. *)
Definition failing_remove : world :=
  World unit (λ _, Ok tt) (λ _, Ok empty_exif) (λ _, Ok [Byte.x45; Byte.x78])
        (λ _ _ _, Ok [Byte.xff; Byte.xd8; Byte.xff; Byte.xe1; Byte.xff; Byte.xd9]) None
        (λ _, Ok 1615804200) 1700000000
        None None (Some OSError) None (λ _, "permission denied") (-2147483648) 17179869183.

(** A row of the metadata table of an export page. *)
Definition table_row (label value : string) : PageElement :=
  Tag "tr" []
    [Tag "td" [("class", "_2pin _a6_q")]
       [Tag "div" [("class", "_a6-q")] [NavigableString label]];
     Tag "td" [("class", "_2pin _a6_q")]
       [Tag "div" [] [Tag "div" [("class", "_a6-q")] [NavigableString value]]]].

Definition sample_img : PageElement :=
  Tag "img" [("src", "media/posts/photo.jpg"); ("class", "_a6_o _3-96")] [].

Definition sample_date_div : PageElement :=
  Tag "div" [("class", "_3-94 _a6-o")] [NavigableString "Jan 01, 2020 12:00 am"].

(** A post with a display date and a [Date taken] row that disagree. *)
Definition post_with_both : PageElement :=
  Tag "div" [("class", "pam _3-95 _2ph- _a6-g uiBoxWhite noborder")]
    [Tag "div" [("class", "_3-95 _a6-p")]
       [sample_img; Tag "table" [] [table_row "Date taken" "2020:01:02 00:00:00"]];
     sample_date_div].

Definition camera_row : PageElement := table_row "Camera" "2018:01:01 00:00:00".
Definition first_date_row : PageElement := table_row "Date taken" "2019:05:05 05:05:05".
Definition second_date_row : PageElement := table_row "Date taken" "2000:01:01 00:00:00".

(** A post with a metadata table only. *)
Definition post_with_table : PageElement :=
  Tag "div" [("class", "pam _3-95 _2ph- _a6-g uiBoxWhite noborder")]
    [Tag "div" [("class", "_3-95 _a6-p")]
       [sample_img; Tag "table" [] [camera_row; first_date_row; second_date_row]]].

Definition sample_document_path : string :=
  "/home/u/export/your_instagram_activity/content/posts_1.html".

Definition sample_export : store :=
  {[ "/home/u/export/media/posts/photo.jpg" := sample_file ]}.

(** The status call fails on a path with a name longer than the 255
    characters a file system takes. *)
Definition name_too_long (p : string) : bool :=
  existsb (λ x, (255 <? String.length x)%nat) (Py.split "/" p).

(** A media name of 264 characters, and a post that refers to it. *)
Definition long_name : string :=
  string_of_list_ascii (repeat "a"%char 260) +:+ ".jpg".

Definition post_with_long_name : PageElement :=
  Tag "div" [("class", "pam _3-95 _2ph- _a6-g uiBoxWhite noborder")]
    [Tag "img" [("src", "media/posts/" +:+ long_name); ("class", "_a6_o _3-96")] [];
     Tag "div" [("class", "_3-94 _a6-o")] [NavigableString "Jan 01, 2020 12:00 am"]].

(** A document whose first post names a file of the export and whose
    second post names the long one. *)
Definition soup_with_long_name : PageElement :=
  Tag "[document]" []
    [Tag "html" [] [Tag "body" []
       [Tag "div" [("class", "pam _3-95 _2ph- _a6-g uiBoxWhite noborder")]
          [Tag "img" [("src", "media/posts/photo.jpg"); ("class", "_a6_o _3-96")] [];
           Tag "div" [("class", "_3-94 _a6-o")] [NavigableString "Jan 01, 2020 12:00 am"]];
        post_with_long_name]]].

(** Lines 168-170: the three assignments into the EXIF dictionary. *)
Definition dated_exif (d0 : exif_dict) (exif_date : string) : res exif_dict :=
  d1 ← exif_set d0 "0th" ImageIFD_DateTime exif_date;
  d2 ← exif_set d1 "Exif" ExifIFD_DateTimeOriginal exif_date;
  exif_set d2 "Exif" ExifIFD_DateTimeDigitized exif_date.

(** Lines 162-165: the dictionary the update starts from. *)
Definition loaded_exif (w : world) (bytes : list Byte.byte) : exif_dict :=
  match piexif_load w bytes with
  | Ok d => d
  | Raise _ => empty_exif
  end.

(** [d[group][tag]], when both keys are there. *)
Definition exif_get (d : exif_dict) (group : string) (tag : Z) : option string :=
  g ← d !! group; g !! tag.

(** The command changes no file outside [touched]. *)
Definition preserves_outside {A} (touched : string → Prop) (c : cmd A) : Prop :=
  ∀ s q, ¬ touched q → files (c s).2 !! q = files s !! q.

(** What the command returns and what it does to the store do not depend
    on what was printed before. *)
Definition stdout_blind {A} (c : cmd A) : Prop :=
  ∀ s o, (c (State (files s) o)).1 = (c s).1
         ∧ files (c (State (files s) o)).2 = files (c s).2.

(** The two paths a call of [update_image_metadata] works on. *)
Definition own_paths (p : string) (q : string) : Prop :=
  q = p ∨ q = p +:+ ".backup".

(** What lines 200-204 end with for the document at a path of the store:
    the records [find_images_in_html] returns, or the exception of the
    reading, of the decoding or of the search. *)
Definition search_outcome (rd : reader) (stat_error : string → bool) (fs : store)
    (html_file_path : string) : res (list (string * datetime)) :=
  match fs !! html_file_path with
  | Some doc =>
      html_content ← decode_utf8 rd (content doc);
      result (find_images_in_html fs stat_error (BeautifulSoup rd html_content)
                html_file_path false)
  | None => Raise OSError
  end.

(** The records [find_images_in_html] gives for the document at a path of
    the store; none when the document is missing or cannot be decoded, or
    when the search raises. *)
Definition found_records (rd : reader) (stat_error : string → bool) (fs : store)
    (html_file_path : string) : list (string * datetime) :=
  match fs !! html_file_path with
  | Some doc =>
      match decode_utf8 rd (content doc) with
      | Ok html_content =>
          match result (find_images_in_html fs stat_error (BeautifulSoup rd html_content)
                          html_file_path false) with
          | Ok recs => recs
          | Raise _ => []
          end
      | Raise _ => []
      end
  | None => []
  end.

(** The number of post containers of the document at a path. *)
Definition post_count (rd : reader) (fs : store) (html_file_path : string) : nat :=
  match fs !! html_file_path with
  | Some doc =>
      match decode_utf8 rd (content doc) with
      | Ok html_content =>
          length (Bs4.find_all "div" (Some post_class) (BeautifulSoup rd html_content))
      | Raise _ => 0%nat
      end
  | None => 0%nat
  end.

(** The fields of a [datetime] pass the range checks of its constructor. *)
Definition well_formed (d : datetime) : Prop :=
  Datetime.valid (Datetime.year d) (Datetime.month d) (Datetime.day d)
                 (Datetime.hour d) (Datetime.minute d) (Datetime.second d) = true.

(** The month abbreviations as the export pages write them. *)
Definition month_names : list string :=
  ["Jan"; "Feb"; "Mar"; "Apr"; "May"; "Jun"; "Jul"; "Aug"; "Sep"; "Oct"; "Nov"; "Dec"].

Definition month_name (m : nat) : string := nth (m - 1) month_names EmptyString.

(** An hour of the twelve-hour clock, with or without a leading zero. *)
Definition hour_text (h : Z) (padded : bool) : string :=
  if h <? 10
  then (if padded then two 0 h else String (Chars.digit_char h) EmptyString)
  else two 1 (h - 10).

Definition meridiem (pm : bool) : string := if pm then "pm" else "am".

(** The hour of the day of a twelve-hour clock reading. *)
Definition hour24 (h : Z) (pm : bool) : Z :=
  if pm then (if h =? 12 then 12 else h + 12) else (if h =? 12 then 0 else h).

(** A text [Mon DD, YYYY H:MM am/pm]. *)
Definition display_text (m : nat) (d1 d2 y1 y2 y3 y4 h : Z) (padded : bool)
    (mi1 mi2 : Z) (pm : bool) : string :=
  month_name m +:+ " " +:+ two d1 d2 +:+ ", " +:+ four y1 y2 y3 y4 +:+ " "
  +:+ hour_text h padded +:+ ":" +:+ two mi1 mi2 +:+ " " +:+ meridiem pm.

(** [parse_instagram_date] with its two attempts in the other order. *)
Definition parse_display_first (date_str : string) : res (option datetime) :=
  try_except_ValueError (Strptime.strptime date_str "%b %d, %Y %I:%M %p")
    (try_except_ValueError (Strptime.strptime date_str "%Y:%m:%d %H:%M:%S")
       (Ok None)).

(** Every character of [s] is white space. *)
Fixpoint all_space (s : string) : bool :=
  match s with
  | EmptyString => true
  | String c s' => Chars.is_space c && all_space s'
  end.

(** A machine-format text with the run [sep] between date and time. *)
Definition machine_text_sep (y1 y2 y3 y4 mo1 mo2 d1 d2 : Z) (sep : string)
    (h1 h2 mi1 mi2 s1 s2 : Z) : string :=
  four y1 y2 y3 y4 +:+ ":" +:+ two mo1 mo2 +:+ ":" +:+ two d1 d2 +:+ sep
  +:+ two h1 h2 +:+ ":" +:+ two mi1 mi2 +:+ ":" +:+ two s1 s2.

(** A world in which every step succeeds. *)
Definition working : world := clear_remove_fault failing_remove.

(** A world in which the copy to the backup path fails and writes
    nothing. *)
Definition failing_copy : world :=
  World unit (λ _, Ok tt) (λ _, Ok empty_exif) (λ _, Ok [Byte.x45; Byte.x78])
        (λ _ _ _, Ok [Byte.xff; Byte.xd8; Byte.xff; Byte.xd9]) None
        (λ _, Ok 1615804200) 1700000000
        (Some (OSError, None)) None None None (λ _, "permission denied")
        (-2147483648) 17179869183.

(** A store in which an older call left a backup behind. *)
Definition stale_backup : file := File [Byte.x00; Byte.x01] 1500000000 1500000000.
Definition store_with_stale_backup : state :=
  State (<["photo.jpg.backup" := stale_backup]> {[ "photo.jpg" := sample_file ]}) [].

(** A document with one post, its reader, and an export tree that holds
    the document and the image. *)
Definition sample_soup : PageElement :=
  Tag "[document]" [] [Tag "html" [] [Tag "body" [] [post_with_both]]].
Definition sample_reader : reader :=
  Reader (λ _, Ok "<html></html>") (λ _, sample_soup) (λ _, "error").
Definition sample_tree : state :=
  State (<[sample_document_path := File [] 1600000000 1600000000]> sample_export) [].

(** A reader that parses every document into the one with the long media
    name, and an export tree that holds the document and the image of its
    first post. *)
Definition long_name_reader : reader :=
  Reader (λ _, Ok "<html></html>") (λ _, soup_with_long_name) (λ _, "File name too long").

(** A world in which every step succeeds and the date lies before the
    range of the file system. *)
Definition early_date : datetime := mkdt 1900 1 1 0 0 0.
Definition early_world : world :=
  World unit (λ _, Ok tt) (λ _, Ok empty_exif) (λ _, Ok [Byte.x45; Byte.x78])
        (λ _ _ _, Ok [Byte.xff; Byte.xd8; Byte.xff; Byte.xe1; Byte.xff; Byte.xd9]) None
        (λ _, Ok (-2208988800)) 1700000000
        None None None None (λ _, "error") (-2147483648) 17179869183.

(** No directory anywhere. *)
Definition no_directories : directories :=
  Directories (λ _, false) (λ p, p) (λ _ _, []).

(** A post whose media reference starts with a slash. *)
Definition post_with_absolute_src : PageElement :=
  Tag "div" [("class", "pam _3-95 _2ph- _a6-g uiBoxWhite noborder")]
    [Tag "img" [("src", "/srv/shared/photo.jpg"); ("class", "_a6_o _3-96")] [];
     sample_date_div].

(* ===================================================================== *)
(** * The model on the examples of the specification                      *)
(* ===================================================================== *)

Example parse_exif_example :
  parse_instagram_date "2024:09:24 15:42:54" = Ok (Some (mkdt 2024 9 24 15 42 54)).
Proof. vm_compute. reflexivity. Qed.

Example parse_display_example :
  parse_instagram_date "Aug 06, 2012 4:13 pm" = Ok (Some (mkdt 2012 8 6 16 13 0)).
Proof. vm_compute. reflexivity. Qed.

Example parse_midnight_example :
  parse_instagram_date "Jan 01, 2020 12:00 am" = Ok (Some (mkdt 2020 1 1 0 0 0)).
Proof. vm_compute. reflexivity. Qed.

Example parse_feb30_example :
  parse_instagram_date "2021:02:30 10:00:00" = Ok None.
Proof. vm_compute. reflexivity. Qed.

Example parse_single_digit_example :
  parse_instagram_date "2024:9:4  5:2:4" = Ok (Some (mkdt 2024 9 4 5 2 4)).
Proof. vm_compute. reflexivity. Qed.

Example strftime_example :
  Datetime.strftime (mkdt 2021 3 15 10 30 0) "%Y:%m:%d %H:%M:%S" = "2021:03:15 10:30:00".
Proof. vm_compute. reflexivity. Qed.

Example strftime_short_year_example :
  Datetime.strftime (mkdt 999 1 1 0 0 0) "%Y:%m:%d %H:%M:%S" = "999:01:01 00:00:00"
  ∧ Datetime.str (mkdt 999 1 1 0 0 0) = "0999-01-01 00:00:00".
Proof. vm_compute. split; reflexivity. Qed.

Example early_date_is_recorded_at_the_bound :
  (update_image_metadata early_world "photo.jpg" early_date store_with_target).1 = Ok true
  ∧ files (update_image_metadata early_world "photo.jpg" early_date
             store_with_target).2 !! "photo.jpg"
    = Some (File [Byte.xff; Byte.xd8; Byte.xff; Byte.xe1; Byte.xff; Byte.xd9]
                 (-2147483648) (-2147483648)).
Proof. split; vm_compute; reflexivity. Qed.

Example failed_status_call_ends_the_document :
  result (find_images_in_html (files sample_tree) name_too_long soup_with_long_name
            sample_document_path false) = Raise OSError
  ∧ (process_html_file long_name_reader (λ _, working) name_too_long
       sample_document_path "/home/u/export" false sample_tree).1 = Ok 0
  ∧ files (process_html_file long_name_reader (λ _, working) name_too_long
             sample_document_path "/home/u/export" false sample_tree).2
      !! "/home/u/export/media/posts/photo.jpg" = Some sample_file.
Proof. repeat split; vm_compute; reflexivity. Qed.

Example parts_example :
  Pathlib.parts "/home/u/export/your_instagram_activity/content/posts_1.html"
  = ["/"; "home"; "u"; "export"; "your_instagram_activity"; "content"; "posts_1.html"].
Proof. vm_compute. reflexivity. Qed.

Example parts_relative_example :
  Pathlib.parts "./a//b/./c/" = ["a"; "b"; "c"].
Proof. vm_compute. reflexivity. Qed.

Example str_join_example :
  Pathlib.str (Pathlib.joinpath ["/"; "home"; "u"] "media/posts/photo.jpg")
  = "/home/u/media/posts/photo.jpg".
Proof. vm_compute. reflexivity. Qed.

(* ===================================================================== *)
(** * Facts about the matcher                                             *)
(* ===================================================================== *)

Section MatcherFacts.
Import Re.

Lemma digit_value_cases n :
  is_digit_value n →
  n = 0 ∨ n = 1 ∨ n = 2 ∨ n = 3 ∨ n = 4 ∨ n = 5 ∨ n = 6 ∨ n = 7 ∨ n = 8 ∨ n = 9.
Proof. unfold is_digit_value. lia. Qed.

Lemma is_digit_digit_char n : is_digit_value n → Chars.is_digit (Chars.digit_char n) = true.
Proof.
  intros H. destruct (digit_value_cases n H) as [->|[->|[->|[->|[->|[->|[->|[->|[->| ->]]]]]]]]];
    reflexivity.
Qed.

Lemma digit_val_digit_char n : is_digit_value n → Chars.digit_val (Chars.digit_char n) = n.
Proof.
  intros H. destruct (digit_value_cases n H) as [->|[->|[->|[->|[->|[->|[->|[->|[->| ->]]]]]]]]];
    reflexivity.
Qed.

Lemma is_space_digit_char n : is_digit_value n → Chars.is_space (Chars.digit_char n) = false.
Proof.
  intros H. destruct (digit_value_cases n H) as [->|[->|[->|[->|[->|[->|[->|[->|[->| ->]]]]]]]]];
    reflexivity.
Qed.

(** The first match of a sequence, from the first matches of its parts. *)
Lemma run_Seq_first r1 r2 s f1 t1 f2 t2 :
  run r1 s = f1 :: t1 →
  run r2 f1.2 = f2 :: t2 →
  ∃ t, run (Seq r1 r2) s = (f1.1.1 ++ f2.1.1, f1.1.2 +:+ f2.1.2, f2.2) :: t.
Proof.
  intros H1 H2. cbn [run]. rewrite H1. cbn [flat_map]. rewrite H2. cbn [map app].
  eexists. reflexivity.
Qed.

Lemma run_Lit_same c rest :
  Chars.lower c = c → run (Lit c) (String c rest) = [([], String c EmptyString, rest)].
Proof. intros H. cbn [run]. rewrite H, Ascii.eqb_refl. reflexivity. Qed.

Lemma run_blank n rest :
  is_digit_value n →
  run (Plus Chars.is_space) (String " " (String (Chars.digit_char n) rest))
  = [([], " ", String (Chars.digit_char n) rest)].
Proof.
  intros H. cbn [run plus_matches].
  change (Chars.is_space " ") with true. cbv iota.
  rewrite (is_space_digit_char n H). reflexivity.
Qed.

Lemma first_match_Seq r1 r2 s e1 m1 s1 e2 m2 s2 :
  first_match r1 s (e1, m1, s1) →
  first_match r2 s1 (e2, m2, s2) →
  first_match (Seq r1 r2) s (e1 ++ e2, m1 +:+ m2, s2).
Proof.
  intros [t1 H1] [t2 H2].
  exact (run_Seq_first r1 r2 s (e1, m1, s1) t1 (e2, m2, s2) t2 H1 H2).
Qed.

Lemma first_match_Lit c rest :
  Chars.lower c = c → first_match (Lit c) (String c rest) ([], String c EmptyString, rest).
Proof. intros H. exists []. by apply run_Lit_same. Qed.

Lemma first_match_Eps s : first_match Eps s ([], EmptyString, s).
Proof. by exists []. Qed.

Lemma first_match_blank n rest :
  is_digit_value n →
  first_match (Plus Chars.is_space) (String " " (String (Chars.digit_char n) rest))
    ([], " ", String (Chars.digit_char n) rest).
Proof. intros H. exists []. by apply run_blank. Qed.

Lemma first_match_eq r s f f' : first_match r s f → f = f' → first_match r s f'.
Proof. by intros H <-. Qed.

Lemma first_match_Group n r s e m rest :
  first_match r s (e, m, rest) → first_match (Group n r) s ((n, m) :: e, m, rest).
Proof. intros [t H]. unfold first_match. cbn [run]. rewrite H. by eexists. Qed.

Lemma first_match_digit n rest :
  is_digit_value n →
  first_match d (String (Chars.digit_char n) rest) ([], String (Chars.digit_char n) EmptyString, rest).
Proof.
  intros H. exists []. unfold d. cbn [run]. by rewrite is_digit_digit_char.
Qed.

Ltac each_digit H :=
  destruct (digit_value_cases _ H) as [->|[->|[->|[->|[->|[->|[->|[->|[->| ->]]]]]]]]].

Ltac two_digit_field Ha Hb :=
  each_digit Ha; each_digit Hb;
  first [ lia | vm_compute; eexists; reflexivity ].

Lemma first_match_Y a b c e rest :
  is_digit_value a → is_digit_value b → is_digit_value c → is_digit_value e →
  first_match (entry "Y") (four a b c e +:+ rest) ([("Y", four a b c e)], four a b c e, rest).
Proof.
  intros Ha Hb Hc He.
  change (entry "Y") with (Group "Y" (Seq d (Seq d (Seq d d)))).
  eapply first_match_eq.
  - apply first_match_Group.
    do 3 (eapply first_match_Seq; [by apply first_match_digit|]).
    by apply first_match_digit.
  - reflexivity.
Qed.

Lemma first_match_m a b rest :
  is_digit_value a → is_digit_value b → 1 ≤ 10 * a + b ≤ 12 →
  first_match (entry "m") (two a b +:+ rest) ([("m", two a b)], two a b, rest).
Proof. intros Ha Hb Hr. unfold first_match. two_digit_field Ha Hb. Qed.

Lemma first_match_d a b rest :
  is_digit_value a → is_digit_value b → 1 ≤ 10 * a + b ≤ 31 →
  first_match (entry "d") (two a b +:+ rest) ([("d", two a b)], two a b, rest).
Proof. intros Ha Hb Hr. unfold first_match. two_digit_field Ha Hb. Qed.

Lemma first_match_H a b rest :
  is_digit_value a → is_digit_value b → 10 * a + b ≤ 23 →
  first_match (entry "H") (two a b +:+ rest) ([("H", two a b)], two a b, rest).
Proof. intros Ha Hb Hr. unfold first_match. two_digit_field Ha Hb. Qed.

Lemma first_match_M a b rest :
  is_digit_value a → is_digit_value b → 10 * a + b ≤ 59 →
  first_match (entry "M") (two a b +:+ rest) ([("M", two a b)], two a b, rest).
Proof. intros Ha Hb Hr. unfold first_match. two_digit_field Ha Hb. Qed.

Lemma first_match_S a b rest :
  is_digit_value a → is_digit_value b → 10 * a + b ≤ 61 →
  first_match (entry "S") (two a b +:+ rest) ([("S", two a b)], two a b, rest).
Proof. intros Ha Hb Hr. unfold first_match. two_digit_field Ha Hb. Qed.

Lemma pattern_exif_format :
  Strptime.pattern exif_format
  = Some (Seq (entry "Y") (Seq (Lit ":") (Seq (entry "m") (Seq (Lit ":") (Seq (entry "d")
      (Seq (Plus Chars.is_space)
        (Seq (entry "H") (Seq (Lit ":") (Seq (entry "M") (Seq (Lit ":")
          (Seq (entry "S") Eps))))))))))).
Proof. reflexivity. Qed.

Lemma int_two a b :
  is_digit_value a → is_digit_value b → Strptime.int (two a b) = number2 a b.
Proof.
  intros Ha Hb. unfold Strptime.int, two, number2.
  cbn [list_ascii_of_string fold_left].
  rewrite !is_digit_digit_char, !digit_val_digit_char by assumption. lia.
Qed.

Lemma int_four a b c e :
  is_digit_value a → is_digit_value b → is_digit_value c → is_digit_value e →
  Strptime.int (four a b c e) = number4 a b c e.
Proof.
  intros Ha Hb Hc He. unfold Strptime.int, four, two, number4.
  cbn [list_ascii_of_string fold_left].
  rewrite !is_digit_digit_char, !digit_val_digit_char by assumption. lia.
Qed.






Lemma valid_ranges y m d H M S :
  Datetime.valid y m d H M S = true →
  1 ≤ m ≤ 12 ∧ 1 ≤ d ≤ 31 ∧ 0 ≤ H ≤ 23 ∧ 0 ≤ M ≤ 59 ∧ 0 ≤ S ≤ 59.
Proof.
  unfold Datetime.valid. rewrite !andb_true_iff, !Z.leb_le.
  intros Hv. repeat match goal with H : _ ∧ _ |- _ => destruct H end.
  assert (Datetime.days_in_month y m ≤ 31).
  { unfold Datetime.days_in_month.
    repeat match goal with |- context [match ?x with _ => _ end] => destruct x end; lia. }
  lia.
Qed.


(** The walk over the group dictionary of the machine format. *)
Lemma convert_exif_groups vY vm vd vH vM vS :
  let found_dict := [("Y", vY); ("m", vm); ("d", vd); ("H", vH); ("M", vM); ("S", vS)] in
  fold_left (Strptime.step found_dict) found_dict (Ok Strptime.init)
  = Ok (Strptime.mkf (Some (Strptime.int vY)) (Strptime.int vm) (Strptime.int vd)
          (Strptime.int vH) (Strptime.int vM) (Strptime.int vS)).
Proof. reflexivity. Qed.

(** The first match of the compiled machine format on a well-formed text,
    and the fields [_strptime] reads from it. *)
Lemma strptime_machine_text y1 y2 y3 y4 mo1 mo2 d1 d2 h1 h2 mi1 mi2 s1 s2 :
  Forall is_digit_value [y1; y2; y3; y4; mo1; mo2; d1; d2; h1; h2; mi1; mi2; s1; s2] →
  1 ≤ number2 mo1 mo2 ≤ 12 → 1 ≤ number2 d1 d2 ≤ 31 → number2 h1 h2 ≤ 23 →
  number2 mi1 mi2 ≤ 59 → number2 s1 s2 ≤ 61 →
  Strptime._strptime (machine_text y1 y2 y3 y4 mo1 mo2 d1 d2 h1 h2 mi1 mi2 s1 s2) exif_format
  = Ok (Strptime.mkf (Some (number4 y1 y2 y3 y4)) (number2 mo1 mo2) (number2 d1 d2)
          (number2 h1 h2) (number2 mi1 mi2) (number2 s1 s2)).
Proof.
  intros Hd Hmo Hday Hh Hmi Hs.
  repeat match goal with
         | H : Forall _ (_ :: _) |- _ => apply Forall_cons in H as [? H]
         end.
  assert (first_match
            (Seq (entry "Y") (Seq (Lit ":") (Seq (entry "m") (Seq (Lit ":") (Seq (entry "d")
               (Seq (Plus Chars.is_space)
                  (Seq (entry "H") (Seq (Lit ":") (Seq (entry "M") (Seq (Lit ":")
                     (Seq (entry "S") Eps)))))))))))
            (machine_text y1 y2 y3 y4 mo1 mo2 d1 d2 h1 h2 mi1 mi2 s1 s2)
            ([("Y", four y1 y2 y3 y4); ("m", two mo1 mo2); ("d", two d1 d2);
              ("H", two h1 h2); ("M", two mi1 mi2); ("S", two s1 s2)],
             machine_text y1 y2 y3 y4 mo1 mo2 d1 d2 h1 h2 mi1 mi2 s1 s2, EmptyString)) as [t Ht].
  { eapply first_match_eq.
    - unfold machine_text.
      eapply first_match_Seq; [by apply first_match_Y|].
      eapply first_match_Seq; [by apply first_match_Lit|].
      eapply first_match_Seq; [by apply first_match_m|].
      eapply first_match_Seq; [by apply first_match_Lit|].
      eapply first_match_Seq; [by apply first_match_d|].
      eapply first_match_Seq; [by apply (first_match_blank h1)|].
      eapply first_match_Seq; [by apply first_match_H|].
      eapply first_match_Seq; [by apply first_match_Lit|].
      eapply first_match_Seq; [by apply first_match_M|].
      eapply first_match_Seq; [by apply first_match_Lit|].
      eapply first_match_Seq; [by apply (first_match_S s1 s2 EmptyString)|].
      apply first_match_Eps.
    - reflexivity. }
  unfold Strptime._strptime. rewrite pattern_exif_format, Ht.
  cbv beta iota. rewrite convert_exif_groups.
  rewrite int_four, !int_two by assumption. reflexivity.
Qed.

End MatcherFacts.

(* ===================================================================== *)
(** * DateParser                                                          *)
(* ===================================================================== *)

Section DateParser.

(** [strptime] raises nothing but [ValueError]. *)
Lemma step_raises fd acc kv e :
  (∀ e', acc = Raise e' → e' = ValueError) →
  Strptime.step fd acc kv = Raise e → e = ValueError.
Proof.
  intros Hacc. unfold Strptime.step, res_bind. destruct acc as [f|e0].
  - repeat match goal with
           | |- context [if ?b then _ else _] => destruct b
           | |- context [match ?o with Some _ => _ | None => _ end] => destruct o
           end; congruence.
  - intros [= <-]. by apply Hacc.
Qed.

Lemma fold_step_raises fd l acc e :
  (∀ e', acc = Raise e' → e' = ValueError) →
  fold_left (Strptime.step fd) l acc = Raise e → e = ValueError.
Proof.
  revert acc. induction l as [|kv l IH]; intros acc Hacc; cbn [fold_left].
  - apply Hacc.
  - apply IH. intros e'. by apply step_raises.
Qed.

Lemma _strptime_raises data_string fmt e :
  Strptime._strptime data_string fmt = Raise e → e = ValueError.
Proof.
  unfold Strptime._strptime.
  destruct (Strptime.pattern fmt) as [format_regex|]; [|congruence].
  destruct (Re.run format_regex data_string) as [|[[found_dict m] rest] t]; [congruence|].
  destruct rest; [|congruence].
  apply fold_step_raises. congruence.
Qed.

Lemma strptime_raises data_string fmt e :
  Strptime.strptime data_string fmt = Raise e → e = ValueError.
Proof.
  unfold Strptime.strptime, res_bind.
  destruct (Strptime._strptime data_string fmt) as [f|e0] eqn:E.
  - unfold Datetime.new. destruct (Datetime.valid _ _ _ _ _ _); congruence.
  - intros [= <-]. by eapply _strptime_raises.
Qed.

Lemma parse_instagram_date_never_raises date_str :
  ∃ date, parse_instagram_date date_str = Ok date.
Proof.
  unfold parse_instagram_date, try_except_ValueError.
  destruct (Strptime.strptime date_str "%Y:%m:%d %H:%M:%S") as [d|e] eqn:E1; [by eexists|].
  rewrite (strptime_raises _ _ _ E1).
  destruct (Strptime.strptime date_str "%b %d, %Y %I:%M %p") as [d|e'] eqn:E2; [by eexists|].
  rewrite (strptime_raises _ _ _ E2). by eexists.
Qed.

(** C6.  DateParser is total: on any string it returns, and never raises.
    The machine format is tried first and its match wins; the display
    format is tried next; a string that neither format accepts, such as
    the empty string or an ISO date with dashes, gives [None]. *)
Theorem parse_instagram_date_total :
  (∀ date_str,
     match Strptime.strptime date_str "%Y:%m:%d %H:%M:%S",
           Strptime.strptime date_str "%b %d, %Y %I:%M %p" with
     | Ok d, _ => parse_instagram_date date_str = Ok (Some d)
     | Raise _, Ok d => parse_instagram_date date_str = Ok (Some d)
     | Raise _, Raise _ => parse_instagram_date date_str = Ok None
     end)
  ∧ parse_instagram_date EmptyString = Ok None
  ∧ parse_instagram_date "2012-08-06" = Ok None
  ∧ parse_instagram_date "not a date" = Ok None.
Proof.
  split; [|by vm_compute].
  intros date_str. unfold parse_instagram_date, try_except_ValueError.
  destruct (Strptime.strptime date_str "%Y:%m:%d %H:%M:%S") as [d|e] eqn:E1; [done|].
  rewrite (strptime_raises _ _ _ E1).
  destruct (Strptime.strptime date_str "%b %d, %Y %I:%M %p") as [d|e'] eqn:E2; [done|].
  by rewrite (strptime_raises _ _ _ E2).
Qed.



End DateParser.

(* ===================================================================== *)
(** * RecordLocator                                                       *)
(* ===================================================================== *)

Section RecordLocator.

Lemma result_bind {A B} (m : io A) (k : A → io B) :
  result (m ≫= k) = match result m with Ok a => result (k a) | Raise e => Raise e end.
Proof. unfold mbind, io_bind. by destruct (result m). Qed.

Lemma result_when {B} (flag : bool) (line : string) (k : io B) :
  result (when flag (print line) ;; k) = result k.
Proof. rewrite result_bind. by destruct flag. Qed.

Lemma output_when_false {B} (line : string) (k : io B) :
  output (when false (print line) ;; k) = output k.
Proof. reflexivity. Qed.

Lemma truthy_spec v : Py.truthy v = true ↔ v ≠ EmptyString.
Proof. destruct v; cbn; split; congruence. Qed.

Lemma post_table_date_hit row rows v :
  supplies_date row v → post_table_date (row :: rows) = parse_instagram_date v.
Proof.
  intros (Hl & Hv & Hne). unfold row_label, row_value in *. cbn [post_table_date].
  destruct (row_cells row) as [[c0 c1]|]; [|done].
  destruct (label_div_of c0) as [ld|]; [|done].
  destruct (value_div_of c1) as [vd|]; [|done].
  cbn in Hl, Hv. injection Hl as Hl. injection Hv as Hv.
  rewrite Hl, Hv, String.eqb_refl. cbv zeta.
  apply truthy_spec in Hne. by rewrite Hne.
Qed.

Lemma post_table_date_skip row rows :
  (∀ v, ¬ supplies_date row v) → post_table_date (row :: rows) = post_table_date rows.
Proof.
  intros Hno. cbn [post_table_date]. unfold supplies_date, row_label, row_value in Hno.
  destruct (row_cells row) as [[c0 c1]|]; [|done].
  destruct (label_div_of c0) as [ld|]; [|done].
  destruct (value_div_of c1) as [vd|]; [|done].
  destruct (String.eqb (Bs4.get_text ld) "Date taken") eqn:El; [|done].
  destruct (Py.truthy (Bs4.get_text vd)) eqn:Et; [|done].
  exfalso. apply (Hno (Bs4.get_text vd)). cbn.
  apply String.eqb_eq in El. apply truthy_spec in Et. by rewrite El.
Qed.

Lemma post_table_date_prefix pre rows :
  Forall (λ r, ∀ v, ¬ supplies_date r v) pre →
  post_table_date (pre ++ rows) = post_table_date rows.
Proof.
  induction 1 as [|r pre Hr _ IH]; [done|].
  rewrite <- app_comm_cons, post_table_date_skip by done. exact IH.
Qed.

Lemma other_label_supplies_nothing row :
  row_label row ≠ Some "Date taken" → ∀ v, ¬ supplies_date row v.
Proof. intros Hl v (Hl' & _). done. Qed.

Lemma post_table_date_never_raises rows : ∃ date, post_table_date rows = Ok date.
Proof.
  induction rows as [|row rows IH]; [by eexists|]. cbn [post_table_date].
  repeat match goal with
         | |- context [match ?x with _ => _ end] => destruct x
         end; try exact IH.
  apply parse_instagram_date_never_raises.
Qed.

Lemma post_date_never_raises post : ∃ date, post_date post = Ok date.
Proof.
  unfold post_date, post_display_date, mbind, res_mbind, res_bind.
  destruct (Bs4.find "div" (Some display_date_class) post) as [dd|].
  - destruct (parse_instagram_date_never_raises (Bs4.get_text dd)) as [[d|] ->].
    + by eexists.
    + apply post_table_date_never_raises.
  - apply post_table_date_never_raises.
Qed.

Lemma resolve_image_result fs stat_error html_file_path img_path debug :
  result (resolve_image fs stat_error html_file_path img_path debug)
  = resolved_path fs stat_error html_file_path img_path.
Proof.
  unfold resolve_image, resolved_path.
  destruct (Py.index _ _); [|by rewrite result_when].
  cbv zeta. rewrite result_bind. unfold lift, Path_exists. cbn [result].
  destruct (stat_error _); [done|].
  unfold mbind, res_mbind, res_bind.
  destruct (path_exists _ _); [done|by rewrite result_when].
Qed.

(** What a post appends, or the exception it ends with, whatever the
    diagnostic flag. *)
Lemma post_records_contribution fs stat_error html_file_path debug post :
  result (post_records fs stat_error html_file_path debug post)
  = contribution fs stat_error html_file_path post.
Proof.
  destruct (post_date_never_raises post) as [date Hd].
  unfold post_records, contribution. rewrite result_bind. unfold lift. cbn [result].
  rewrite Hd. destruct (post_img_src post) as [img_path|]; [|done].
  destruct date as [d|]; [|done].
  rewrite result_bind, resolve_image_result.
  unfold mbind, res_mbind, res_bind.
  by destruct (resolved_path _ _ _ _) as [[full_path|]|e].
Qed.

(** The only exception of a post is the [OSError] of a failed status
    call. *)
Lemma contribution_raises fs stat_error html_file_path post e :
  contribution fs stat_error html_file_path post = Raise e →
  e = OSError ∧ ∃ p, stat_error p = true.
Proof.
  unfold contribution, resolved_path, Path_exists, mbind, res_mbind, res_bind.
  destruct (post_img_src post) as [img_path|]; [|done].
  destruct (post_date post) as [[d|]|]; try done.
  destruct (Py.index _ _) as [i|]; [|done]. cbv zeta.
  destruct (stat_error _) eqn:E; [|done]. intros [= <-]. split; [done|by eexists].
Qed.

(** C3.  When the display-date block of a post parses, its value is the
    date of the post whatever the metadata table holds, and it is the
    timestamp of every record the post emits; the post emits its records
    unless the status call on the media path fails. *)
Theorem display_date_precedence (post date_div : PageElement) (d : datetime) :
  Bs4.find "div" (Some display_date_class) post = Some date_div →
  parse_instagram_date (Bs4.get_text date_div) = Ok (Some d) →
  post_date post = Ok (Some d)
  ∧ ∀ fs stat_error html_file_path debug,
      (∃ recs, result (post_records fs stat_error html_file_path debug post) = Ok recs
               ∧ Forall (λ r, r.2 = d) recs)
      ∨ (result (post_records fs stat_error html_file_path debug post) = Raise OSError
         ∧ ∃ p, stat_error p = true).
Proof.
  intros Hfind Hparse.
  assert (post_date post = Ok (Some d)) as Hd.
  { unfold post_date, post_display_date. by rewrite Hfind, Hparse. }
  split; [done|]. intros fs stat_error html_file_path debug.
  rewrite post_records_contribution.
  destruct (contribution fs stat_error html_file_path post) as [recs|e] eqn:E.
  - left. eexists; split; [done|]. revert E. unfold contribution. rewrite Hd.
    unfold mbind, res_mbind, res_bind.
    destruct (post_img_src post); [|intros [= <-]; constructor].
    destruct (resolved_path _ _ _ _) as [[full_path|]|]; intros [= <-];
      repeat constructor.
  - right. by destruct (contribution_raises _ _ _ _ _ E) as [-> ?].
Qed.

(** C4.  When the display date is not usable, the rows of the post are
    scanned in document order: the first row labeled exactly
    [Date taken] with a non-empty value supplies the string that is
    parsed, whatever follows it; and a row with another label changes
    nothing, whatever its value. *)
Theorem table_fallback (post : PageElement) (pre suf : list PageElement) (row : PageElement) :
  post_display_date post = Ok None →
  Bs4.find_all "tr" None post = pre ++ row :: suf →
  (∀ v, Forall (λ r, ∀ v', ¬ supplies_date r v') pre → supplies_date row v →
        post_date post = parse_instagram_date v)
  ∧ (row_label row ≠ Some "Date taken" → post_date post = post_table_date (pre ++ suf)).
Proof.
  intros Hdisp Hrows.
  assert (post_date post = post_table_date (pre ++ row :: suf)) as ->.
  { unfold post_date. by rewrite Hdisp, Hrows. }
  split.
  - intros v Hpre Hrow. rewrite post_table_date_prefix by done.
    by apply post_table_date_hit.
  - intros Hl. clear Hrows Hdisp. induction pre as [|r pre IH]; cbn [app].
    + apply post_table_date_skip. by apply other_label_supplies_nothing.
    + cbn [post_table_date].
      repeat match goal with
             | |- context [match ?x with _ => _ end] => destruct x
             end; done.
Qed.

End RecordLocator.

(* ===================================================================== *)
(** * PathResolver and the emitted records                                *)
(* ===================================================================== *)

Section PathResolver.












Lemma for_posts_result fs stat_error html_file_path debug posts acc :
  result (for_posts fs stat_error html_file_path debug posts acc)
  = (per_post ← contributions fs stat_error html_file_path posts;
     Ok (acc ++ concat per_post)).
Proof.
  revert acc. induction posts as [|post posts IH]; intros acc;
    cbn [for_posts contributions].
  - cbn. by rewrite app_nil_r.
  - rewrite result_bind, post_records_contribution.
    unfold mbind at 2, res_mbind, res_bind.
    destruct (contribution _ _ _ post) as [new|e]; [|done].
    rewrite IH. unfold mbind, res_mbind, res_bind.
    destruct (contributions _ _ _ posts) as [rest|e]; [|done].
    cbn [concat]. by rewrite app_assoc.
Qed.

Lemma find_images_in_html_result fs stat_error soup html_file_path debug :
  result (find_images_in_html fs stat_error soup html_file_path debug)
  = (per_post ← contributions fs stat_error html_file_path
                  (Bs4.find_all "div" (Some post_class) soup);
     Ok (concat per_post)).
Proof. unfold find_images_in_html. cbv zeta. by rewrite for_posts_result. Qed.


End PathResolver.

Section Emission.

Lemma post_img_src_spec post img_path :
  post_img_src post = Some img_path →
  ∃ img_tag, Bs4.find "img" (Some img_class) post = Some img_tag
             ∧ Bs4.get "src" img_tag = Some img_path ∧ img_path ≠ EmptyString.
Proof.
  unfold post_img_src. destruct (Bs4.find "img" (Some img_class) post) as [img_tag|]; [|done].
  cbn. destruct (Bs4.get "src" img_tag) as [src|] eqn:Eg; [|done]. cbn.
  destruct (Py.truthy src) eqn:E; [|done]. intros [= ->].
  exists img_tag. apply truthy_spec in E. by rewrite Eg.
Qed.

Lemma contribution_gate fs stat_error html_file_path post :
  (post_img_src post = None ∨ post_date post = Ok None →
   contribution fs stat_error html_file_path post = Ok [])
  ∧ (∀ recs rec, contribution fs stat_error html_file_path post = Ok recs →
       rec ∈ recs →
       ∃ img_tag img_path d,
         Bs4.find "img" (Some img_class) post = Some img_tag
         ∧ Bs4.get "src" img_tag = Some img_path ∧ img_path ≠ EmptyString
         ∧ post_date post = Ok (Some d) ∧ rec.2 = d).
Proof.
  unfold contribution. split.
  - intros [-> | ->]; [done|]. by destruct (post_img_src post).
  - intros recs rec.
    destruct (post_img_src post) as [img_path|] eqn:Es;
      [|by intros [= <-] ?%elem_of_nil].
    destruct (post_date post) as [[d|]|]; try by intros [= <-] ?%elem_of_nil.
    unfold mbind, res_mbind, res_bind.
    destruct (resolved_path _ _ _ _) as [[full_path|]|]; [| |done];
      intros [= <-]; [|by intros ?%elem_of_nil].
    intros ->%list_elem_of_singleton.
    destruct (post_img_src_spec _ _ Es) as (img_tag & ? & ? & ?).
    by exists img_tag, img_path, d.
Qed.

Lemma contributions_per_post fs stat_error html_file_path posts per_post :
  contributions fs stat_error html_file_path posts = Ok per_post →
  Forall2 (λ post recs, contribution fs stat_error html_file_path post = Ok recs)
    posts per_post.
Proof.
  revert per_post. induction posts as [|post posts IH]; intros per_post;
    cbn [contributions].
  - intros [= <-]. constructor.
  - unfold mbind, res_mbind, res_bind.
    destruct (contribution _ _ _ post) as [new|] eqn:E; [|done].
    destruct (contributions _ _ _ posts) as [rest|]; [|done].
    intros [= <-]. constructor; [done|by apply IH].
Qed.

(** C5.  A post container contributes nothing when it has no media
    element with a non-empty reference or no parsed date, and every
    record a post does contribute comes with both; whenever
    [find_images_in_html] returns, its output is, post by post and in
    order, what each post container contributed. *)
Theorem record_emission_gate (fs : store) (stat_error : string → bool)
    (soup : PageElement) (html_file_path : string) (debug : bool) :
  (∀ post,
     post_img_src post = None ∨ post_date post = Ok None →
     result (post_records fs stat_error html_file_path debug post) = Ok [])
  ∧ (∀ post recs rec,
       result (post_records fs stat_error html_file_path debug post) = Ok recs →
       rec ∈ recs →
       ∃ img_tag img_path d,
         Bs4.find "img" (Some img_class) post = Some img_tag
         ∧ Bs4.get "src" img_tag = Some img_path ∧ img_path ≠ EmptyString
         ∧ post_date post = Ok (Some d) ∧ rec.2 = d)
  ∧ (∀ recs,
       result (find_images_in_html fs stat_error soup html_file_path debug) = Ok recs →
       ∃ per_post,
         recs = concat per_post
         ∧ Forall2
             (λ post post_recs,
                result (post_records fs stat_error html_file_path debug post)
                = Ok post_recs)
             (Bs4.find_all "div" (Some post_class) soup) per_post).
Proof.
  split; [|split].
  - intros post H. rewrite post_records_contribution. by apply contribution_gate.
  - intros post recs rec. rewrite post_records_contribution.
    apply contribution_gate.
  - intros recs. rewrite find_images_in_html_result.
    unfold mbind, res_mbind, res_bind.
    destruct (contributions _ _ _ _) as [per_post|] eqn:E; [|done].
    intros [= <-]. exists per_post. split; [done|].
    eapply Forall2_impl; [by apply contributions_per_post|].
    intros post post_recs H. by rewrite post_records_contribution.
Qed.

Lemma find_date_rows_result debug rows :
  result (find_date_rows debug rows) = post_table_date rows.
Proof.
  induction rows as [|row rows IH]; [done|]. cbn [find_date_rows post_table_date].
  destruct (row_cells row) as [[c0 c1]|]; [|done].
  destruct (label_div_of c0) as [ld|]; [|by destruct (value_div_of c1)].
  rewrite result_when.
  destruct (value_div_of c1) as [vd|]; [|done].
  destruct (String.eqb _ _); [|done]. cbv zeta.
  destruct (Py.truthy _); [|done].
  rewrite result_bind. unfold lift. cbn [result].
  destruct (parse_instagram_date _); [|done]. by rewrite result_when.
Qed.

Lemma find_date_in_html_result soup debug :
  result (find_date_in_html soup debug) = post_date soup.
Proof.
  unfold find_date_in_html, post_date, post_display_date. cbv zeta.
  rewrite result_bind.
  destruct (Bs4.find "div" (Some display_date_class) soup) as [dd|].
  - rewrite result_when, result_bind. unfold lift. cbn [result].
    unfold mbind at 2, res_mbind, res_bind.
    destruct (parse_instagram_date (Bs4.get_text dd)) as [[d|]|]; [| |done].
    + by rewrite result_when.
    + cbn [mret io_ret result]. by rewrite result_when, find_date_rows_result.
  - cbn [mret io_ret result mbind res_mbind res_bind].
    by rewrite result_when, find_date_rows_result.
Qed.

Lemma output_bind {A B} (m : io A) (k : A → io B) :
  output (m ≫= k)
  = match result m with Ok a => output m ++ output (k a) | Raise _ => output m end.
Proof. unfold mbind, io_bind. by destruct (result m). Qed.

Lemma find_date_rows_quiet rows : output (find_date_rows false rows) = [].
Proof.
  induction rows as [|row rows IH]; [done|]. cbn [find_date_rows].
  destruct (row_cells row) as [[c0 c1]|]; [|done].
  destruct (label_div_of c0) as [ld|]; [|done].
  rewrite output_when_false.
  destruct (value_div_of c1) as [vd|]; [|done].
  destruct (String.eqb _ _); [|done]. cbv zeta.
  destruct (Py.truthy _); [|done].
  rewrite output_bind. unfold lift. cbn [result output].
  by destruct (parse_instagram_date _).
Qed.

Lemma find_date_in_html_quiet soup : output (find_date_in_html soup false) = [].
Proof.
  unfold find_date_in_html. cbv zeta. rewrite output_bind.
  destruct (Bs4.find "div" (Some display_date_class) soup) as [dd|].
  - rewrite output_when_false. rewrite result_when, result_bind, output_bind.
    unfold lift. cbn [result output].
    destruct (parse_instagram_date (Bs4.get_text dd)) as [[d|]|]; [done| |done].
    cbn [mret io_ret result output app]. by rewrite output_when_false, find_date_rows_quiet.
  - cbn [mret io_ret result output app].
    by rewrite output_when_false, find_date_rows_quiet.
Qed.

Lemma post_records_quiet fs stat_error html_file_path post :
  output (post_records fs stat_error html_file_path false post) = [].
Proof.
  unfold post_records. rewrite output_bind. unfold lift. cbn [result output app].
  destruct (post_date post) as [date|]; [|done].
  destruct (post_img_src post) as [img_path|]; [|done].
  destruct date as [d|]; [|done].
  rewrite output_bind.
  assert (output (resolve_image fs stat_error html_file_path img_path false) = [])
    as ->.
  { unfold resolve_image. destruct (Py.index _ _); [|done]. cbv zeta.
    rewrite output_bind. unfold lift, Path_exists. cbn [result output app].
    destruct (stat_error _); [done|]. by destruct (path_exists _ _). }
  by destruct (result _) as [[full_path|]|].
Qed.

Lemma for_posts_quiet fs stat_error html_file_path posts acc :
  output (for_posts fs stat_error html_file_path false posts acc) = [].
Proof.
  revert acc. induction posts as [|post posts IH]; intros acc; [done|].
  cbn [for_posts]. rewrite output_bind, post_records_quiet.
  destruct (result _); [apply IH|done].
Qed.

(** C9.  The records [find_images_in_html] returns, and the date
    [find_date_in_html] returns, are the same with the diagnostic flag on
    and off; with the flag off nothing is printed. *)
Theorem diagnostic_noninterference (fs : store) (stat_error : string → bool)
    (soup : PageElement) (html_file_path : string) :
  result (find_images_in_html fs stat_error soup html_file_path true)
  = result (find_images_in_html fs stat_error soup html_file_path false)
  ∧ output (find_images_in_html fs stat_error soup html_file_path false) = []
  ∧ result (find_date_in_html soup true) = result (find_date_in_html soup false)
  ∧ output (find_date_in_html soup false) = [].
Proof.
  rewrite !find_images_in_html_result.
  unfold find_images_in_html. cbv zeta. rewrite for_posts_quiet.
  by rewrite !find_date_in_html_result, find_date_in_html_quiet.
Qed.

End Emission.

(* ===================================================================== *)
(** * MetadataWriter                                                      *)
(* ===================================================================== *)

Section MetadataWriter.

Variable w : world.
Variable image_path : string.
Variable date_taken : datetime.

Let backup_path : string := image_path +:+ ".backup".

Lemma append_nonempty_ne (p x : string) : x ≠ EmptyString → p +:+ x ≠ p.
Proof.
  intros Hx. induction p as [|c p IH]; cbn [String.append]; [done|].
  intros [= H]. by apply IH.
Qed.

Lemma backup_path_ne : backup_path ≠ image_path.
Proof. by apply append_nonempty_ne. Qed.

(** The body either completes, and then the backup is gone; or it raises
    after a successful copy, and then the backup still holds the
    original file. *)
Lemma update_body_backup s f :
  files s !! image_path = Some f →
  let out := update_body w image_path backup_path date_taken s in
  match out.1 with
  | Ok b => b = true ∧ files out.2 !! backup_path = None
            ∧ copy2_fault w = None ∧ remove_fault w = None
  | Raise _ => copy2_fault w = None → files out.2 !! backup_path = Some f
  end.
Proof.
  intros Hf. pose proof backup_path_ne as Hne.
  unfold update_body, shutil_copy2, read_bytes, cmd_lift, try_except, img_save,
    os_utime, os_remove, cmd_print, mbind, cmd_bind, mret, cmd_ret.
  cbv zeta.
  repeat (case_match; simplify_map_eq; try done).
Qed.

Lemma update_handler_spec e s1 :
  let out := update_handler w image_path backup_path e s1 in
  match files s1 !! backup_path with
  | Some fb =>
      match move_fault w with
      | None => out.1 = Ok false
                ∧ files out.2 = <[image_path := fb]> (delete backup_path (files s1))
      | Some e' => out.1 = Raise e'
      end
  | None => out.1 = Ok false ∧ files out.2 = files s1
  end.
Proof.
  unfold update_handler, os_path_exists, path_exists, shutil_move, cmd_print,
    mbind, cmd_bind, mret, cmd_ret.
  cbn [files]. destruct (files s1 !! backup_path) as [fb|] eqn:E.
  - rewrite bool_decide_true by done. cbn [files]. rewrite E.
    by destruct (move_fault w).
  - rewrite bool_decide_false by (intros [? ?]; done). done.
Qed.

Lemma update_image_metadata_present s f :
  files s !! image_path = Some f →
  update_image_metadata w image_path date_taken s
  = try_except (update_body w image_path backup_path date_taken)
               (update_handler w image_path backup_path) s.
Proof.
  intros Hf. unfold update_image_metadata, os_path_exists, path_exists.
  unfold mbind at 1, cmd_bind at 1. rewrite bool_decide_true by done. done.
Qed.

Lemma update_image_metadata_absent s :
  files s !! image_path = None →
  update_image_metadata w image_path date_taken s
  = (Ok false,
     State (files s) (stdout s ++ ["  Error: Image not found: " +:+ image_path])).
Proof.
  intros Hf. unfold update_image_metadata, os_path_exists, path_exists.
  unfold mbind at 1, cmd_bind at 1.
  rewrite bool_decide_false by (rewrite Hf; by intros [? ?]). done.
Qed.

Lemma update_image_metadata_unfold (w' : world) s :
  update_image_metadata w' image_path date_taken s
  = if path_exists (files s) image_path
    then try_except (update_body w' image_path (image_path +:+ ".backup") date_taken)
                    (update_handler w' image_path (image_path +:+ ".backup")) s
    else (Ok false,
          State (files s) (stdout s ++ ["  Error: Image not found: " +:+ image_path])).
Proof.
  unfold update_image_metadata, os_path_exists.
  unfold mbind at 1, cmd_bind at 1. by destruct (path_exists (files s) image_path).
Qed.

(** An exception of [piexif.load] never leaves the inner [try]: the body
    runs as if the load had returned the empty block. *)
Lemma update_body_absorbs_exif_load s :
  update_body w image_path backup_path date_taken s
  = update_body (absorb_exif_load_error w) image_path backup_path date_taken s.
Proof.
  unfold update_body, shutil_copy2, read_bytes, cmd_lift, try_except, img_save,
    os_utime, os_remove, cmd_print, mbind, cmd_bind, mret, cmd_ret,
    absorb_exif_load_error.
  unfold recorded_time.
  cbn [image Image_open piexif_load piexif_dump Image_save save_leftover timestamp clock
       copy2_fault utime_fault remove_fault move_fault exn_str time_min time_max].
  cbv zeta.
  repeat (case_match; simplify_eq; try done).
Qed.

(** C1, as the code has it.  For a target that exists: whenever the call
    returns, with success or with failure, no backup file is left; when an
    exception escapes the update after the backup copy was made, the call
    returns [False] and the target is again the original file, byte for
    byte (the restoring move itself being carried out); and an exception
    raised while the existing EXIF block is loaded is not such a failure,
    the call runs as if the load had given the empty block. *)
Theorem metadata_writer_atomic (s : state) (f : file) :
  files s !! image_path = Some f →
  let out := update_image_metadata w image_path date_taken s in
  (∀ b, out.1 = Ok b → files out.2 !! backup_path = None)
  ∧ (∀ e, copy2_fault w = None → move_fault w = None →
          (update_body w image_path backup_path date_taken s).1 = Raise e →
          out.1 = Ok false
          ∧ files out.2 !! image_path = Some f
          ∧ files out.2 !! backup_path = None)
  ∧ out = update_image_metadata (absorb_exif_load_error w) image_path date_taken s.
Proof.
  intros Hf. pose proof backup_path_ne as Hne. cbv zeta.
  split; [|split].
  - rewrite (update_image_metadata_present s f Hf). unfold try_except.
    pose proof (update_body_backup s f Hf) as Hbody. cbv zeta in Hbody.
    destruct (update_body w image_path backup_path date_taken s) as [[b|e0] s1].
    + cbn [fst snd] in *. by destruct Hbody as (-> & Hb & _).
    + pose proof (update_handler_spec e0 s1) as Hh. cbv zeta in Hh.
      intros b Hb. destruct (files s1 !! backup_path) as [fb|] eqn:E.
      * destruct (move_fault w); [congruence|]. destruct Hh as [_ ->].
        by rewrite lookup_insert_ne, lookup_delete_eq.
      * destruct Hh as [_ ->]. done.
  - rewrite (update_image_metadata_present s f Hf). unfold try_except.
    pose proof (update_body_backup s f Hf) as Hbody. cbv zeta in Hbody.
    destruct (update_body w image_path backup_path date_taken s) as [[b|e0] s1];
      [by intros|].
    cbn [fst snd] in Hbody.
    pose proof (update_handler_spec e0 s1) as Hh. cbv zeta in Hh.
    intros e Hc Hm _. rewrite (Hbody Hc), Hm in Hh. destruct Hh as [-> ->].
    by rewrite lookup_insert_eq, lookup_insert_ne, lookup_delete_eq.
  - rewrite !update_image_metadata_unfold.
    destruct (path_exists (files s) image_path); [|done].
    unfold try_except. fold backup_path. by rewrite update_body_absorbs_exif_load.
Qed.



(** C8, as the code has it.  The call returns a boolean: [False] when the
    target is missing, and then nothing is touched; [False] again when a
    step of the update raises and the backup is moved back; [True] when
    the body completes.  The return value has two states, not three. *)
Theorem update_result_two_valued (s : state) :
  let out := update_image_metadata w image_path date_taken s in
  let body := update_body w image_path backup_path date_taken s in
  match files s !! image_path with
  | None => out.1 = Ok false ∧ files out.2 = files s
  | Some _ =>
      match body.1 with
      | Ok _ => out.1 = Ok true
      | Raise _ => match out.1 with
                   | Ok b => b = false
                   | Raise e => move_fault w = Some e
                   end
      end
  end.
Proof.
  cbv zeta. destruct (files s !! image_path) as [f|] eqn:Hf.
  - rewrite (update_image_metadata_present s f Hf). unfold try_except.
    pose proof (update_body_backup s f Hf) as Hbody. cbv zeta in Hbody.
    destruct (update_body w image_path backup_path date_taken s) as [[b|e0] s1];
      cbn [fst snd] in *.
    + by destruct Hbody as (-> & _).
    + pose proof (update_handler_spec e0 s1) as Hh. cbv zeta in Hh.
      destruct (files s1 !! backup_path); [destruct (move_fault w)|].
      * by rewrite Hh.
      * destruct Hh as [-> _]. done.
      * destruct Hh as [-> _]. done.
  - by rewrite (update_image_metadata_absent s Hf).
Qed.

End MetadataWriter.

(** C8, as the claim states it, fails: a missing target and a failed write
    both return [False], so no reading of the return value tells
    [Skipped] from [Failed]. *)
Lemma update_result_not_tri_state :
  (update_image_metadata failing_save "photo.jpg" sample_date store_without_target).1 = Ok false
  ∧ spec_outcome failing_save "photo.jpg" sample_date store_without_target = Skipped
  ∧ (update_image_metadata failing_save "photo.jpg" sample_date store_with_target).1 = Ok false
  ∧ spec_outcome failing_save "photo.jpg" sample_date store_with_target = Failed
  ∧ ¬ tri_state_distinguishable.
Proof.
  assert ((update_image_metadata failing_save "photo.jpg" sample_date
             store_without_target).1 = Ok false) as H1 by (by vm_compute).
  assert (spec_outcome failing_save "photo.jpg" sample_date store_without_target = Skipped)
    as H2 by (by vm_compute).
  assert ((update_image_metadata failing_save "photo.jpg" sample_date
             store_with_target).1 = Ok false) as H3 by (by vm_compute).
  assert (spec_outcome failing_save "photo.jpg" sample_date store_with_target = Failed)
    as H4 by (by vm_compute).
  repeat split; try done.
  intros [classify Hc].
  pose proof (Hc _ _ _ _ _ H1) as Ha. pose proof (Hc _ _ _ _ _ H3) as Hb.
  congruence.
Qed.

(** C1, as the claim states it, fails for the first step it names: an
    exception raised while the existing EXIF block is loaded is absorbed,
    the update goes on with an empty block, the call returns [True] and
    the target is the re-encoded file, not the original. *)
Lemma exif_load_exception_is_absorbed :
  files store_with_target !! "photo.jpg" = Some sample_file
  ∧ copy2_fault unreadable_exif = None
  ∧ piexif_load unreadable_exif (content sample_file) = Raise ValueError
  ∧ (update_image_metadata unreadable_exif "photo.jpg" sample_date store_with_target).1
    = Ok true
  ∧ files (update_image_metadata unreadable_exif "photo.jpg" sample_date
             store_with_target).2 !! "photo.jpg"
    = Some (File [Byte.xff; Byte.xd8; Byte.xff; Byte.xe1; Byte.xff; Byte.xd9]
                 1615804200 1615804200)
  ∧ ¬ exif_load_failure_restores.
Proof.
  assert (files store_with_target !! "photo.jpg" = Some sample_file) as Hf
    by (by vm_compute).
  assert (piexif_load unreadable_exif (content sample_file) = Raise ValueError) as Hload
    by (by vm_compute).
  assert ((update_image_metadata unreadable_exif "photo.jpg" sample_date
             store_with_target).1 = Ok true) as Hout by (by vm_compute).
  split; [exact Hf|]. split; [reflexivity|]. split; [exact Hload|].
  split; [exact Hout|]. split; [by vm_compute|].
  intros Hclaim.
  destruct (Hclaim unreadable_exif "photo.jpg" sample_date store_with_target
              sample_file ValueError Hf eq_refl Hload) as [Hfalse _].
  rewrite Hout in Hfalse. discriminate Hfalse.
Qed.

Lemma metadata_writer_atomic_witness :
  files store_with_target !! "photo.jpg" = Some sample_file
  ∧ (update_image_metadata failing_save "photo.jpg" sample_date store_with_target).1
    = Ok false
  ∧ files (update_image_metadata failing_save "photo.jpg" sample_date
             store_with_target).2 !! "photo.jpg" = Some sample_file
  ∧ files (update_image_metadata failing_save "photo.jpg" sample_date
             store_with_target).2 !! "photo.jpg.backup" = None.
Proof.
  assert (files store_with_target !! "photo.jpg" = Some sample_file) as H
    by (vm_compute; reflexivity).
  split; [exact H|].
  destruct (metadata_writer_atomic failing_save "photo.jpg" sample_date
              store_with_target sample_file H) as (_ & Hrestore & _).
  apply (Hrestore OSError); vm_compute; reflexivity.
Defined.


Lemma display_date_precedence_witness :
  post_table_date (Bs4.find_all "tr" None post_with_both) = Ok (Some (mkdt 2020 1 2 0 0 0))
  ∧ post_date post_with_both = Ok (Some (mkdt 2020 1 1 0 0 0)).
Proof.
  split; [vm_compute; reflexivity|].
  apply (display_date_precedence post_with_both sample_date_div (mkdt 2020 1 1 0 0 0));
    vm_compute; reflexivity.
Defined.

Lemma table_fallback_witness :
  post_display_date post_with_table = Ok None
  ∧ post_date post_with_table = Ok (Some (mkdt 2019 5 5 5 5 5)).
Proof.
  assert (post_display_date post_with_table = Ok None) as Hdisp by (vm_compute; reflexivity).
  split; [exact Hdisp|].
  assert (Bs4.find_all "tr" None post_with_table
          = [camera_row] ++ first_date_row :: [second_date_row]) as Hrows
    by (vm_compute; reflexivity).
  destruct (table_fallback post_with_table [camera_row] [second_date_row] first_date_row
              Hdisp Hrows) as [Hfirst _].
  rewrite (Hfirst "2019:05:05 05:05:05").
  - vm_compute; reflexivity.
  - constructor; [|constructor]. intros v' (Hl & _). vm_compute in Hl. discriminate Hl.
  - repeat split; try (vm_compute; reflexivity). discriminate.
Defined.




(* ===================================================================== *)
(** * Commands: what they touch and what they read                        *)
(* ===================================================================== *)

Section Commands.

Context {A B : Type}.

Lemma preserves_ret touched (a : A) : preserves_outside touched (mret a : cmd A).
Proof. by intros s q _. Qed.

Lemma preserves_bind touched (c : cmd A) (k : A → cmd B) :
  preserves_outside touched c → (∀ a, preserves_outside touched (k a)) →
  preserves_outside touched (c ≫= k).
Proof.
  intros Hc Hk s q Hq. unfold mbind, cmd_bind.
  specialize (Hc s q Hq). destruct (c s) as [[a|e] s']; cbn [snd] in *; [|done].
  by rewrite (Hk a s' q Hq).
Qed.

Lemma preserves_try touched (c : cmd A) (h : exn → cmd A) :
  preserves_outside touched c → (∀ e, preserves_outside touched (h e)) →
  preserves_outside touched (try_except c h).
Proof.
  intros Hc Hh s q Hq. unfold try_except.
  specialize (Hc s q Hq). destruct (c s) as [[a|e] s']; cbn [snd] in *; [done|].
  by rewrite (Hh e s' q Hq).
Qed.

Lemma preserves_weaken (touched touched' : string → Prop) (c : cmd A) :
  (∀ q, touched q → touched' q) →
  preserves_outside touched c → preserves_outside touched' c.
Proof. intros Hsub Hc s q Hq. apply Hc. intros H. by apply Hq, Hsub. Qed.

Lemma blind_ret (a : A) : stdout_blind (mret a : cmd A).
Proof. by intros s o. Qed.

Lemma blind_bind (c : cmd A) (k : A → cmd B) :
  stdout_blind c → (∀ a, stdout_blind (k a)) → stdout_blind (c ≫= k).
Proof.
  intros Hc Hk s o. unfold mbind, cmd_bind.
  destruct (Hc s o) as [Hr Hf].
  destruct (c (State (files s) o)) as [r1 [f1 o1]], (c s) as [r2 [f2 o2]].
  cbn [fst snd files] in *. subst. destruct r2 as [a|e]; [|done].
  destruct (Hk a (State f2 o2) o1) as [Hr' Hf']. cbn [files] in *. done.
Qed.

Lemma blind_try (c : cmd A) (h : exn → cmd A) :
  stdout_blind c → (∀ e, stdout_blind (h e)) → stdout_blind (try_except c h).
Proof.
  intros Hc Hh s o. unfold try_except.
  destruct (Hc s o) as [Hr Hf].
  destruct (c (State (files s) o)) as [r1 [f1 o1]], (c s) as [r2 [f2 o2]].
  cbn [fst snd files] in *. subst. destruct r2 as [a|e]; [done|].
  destruct (Hh e (State f2 o2) o1) as [Hr' Hf']. cbn [files] in *. done.
Qed.

End Commands.

Section Primitives.

Lemma preserves_print touched line : preserves_outside touched (cmd_print line).
Proof. by intros s q _. Qed.

Lemma preserves_lift {A} touched (r : res A) : preserves_outside touched (cmd_lift r).
Proof. by intros s q _. Qed.

Lemma preserves_exists touched p : preserves_outside touched (os_path_exists p).
Proof. by intros s q _. Qed.

Lemma preserves_read touched p : preserves_outside touched (read_bytes p).
Proof. intros s q _. unfold read_bytes. by destruct (files s !! p). Qed.

Lemma preserves_copy2 (touched : string → Prop) w src dst :
  touched dst → preserves_outside touched (shutil_copy2 w src dst).
Proof.
  intros Hd s q Hq. assert (dst ≠ q) by congruence. unfold shutil_copy2.
  repeat case_match; cbn [snd files]; by rewrite ?lookup_insert_ne.
Qed.

Lemma preserves_save (touched : string → Prop) w img p exif_bytes quality :
  touched p → preserves_outside touched (img_save w img p exif_bytes quality).
Proof.
  intros Hd s q Hq. assert (p ≠ q) by congruence. unfold img_save.
  repeat case_match; cbn [snd files]; by rewrite ?lookup_insert_ne.
Qed.

Lemma preserves_utime (touched : string → Prop) w p a m :
  touched p → preserves_outside touched (os_utime w p a m).
Proof.
  intros Hd s q Hq. assert (p ≠ q) by congruence. unfold os_utime.
  repeat case_match; cbn [snd files]; by rewrite ?lookup_insert_ne.
Qed.

Lemma preserves_remove (touched : string → Prop) w p :
  touched p → preserves_outside touched (os_remove w p).
Proof.
  intros Hd s q Hq. assert (p ≠ q) by congruence. unfold os_remove.
  repeat case_match; cbn [snd files]; by rewrite ?lookup_delete_ne.
Qed.

Lemma preserves_move (touched : string → Prop) w src dst :
  touched src → touched dst → preserves_outside touched (shutil_move w src dst).
Proof.
  intros Hs Hd s q Hq. assert (src ≠ q) by congruence. assert (dst ≠ q) by congruence.
  unfold shutil_move.
  repeat case_match; cbn [snd files]; by rewrite ?lookup_insert_ne, ?lookup_delete_ne.
Qed.

Lemma blind_print line : stdout_blind (cmd_print line).
Proof. by intros s o. Qed.

Lemma blind_lift {A} (r : res A) : stdout_blind (cmd_lift r).
Proof. by intros s o. Qed.

Lemma blind_exists p : stdout_blind (os_path_exists p).
Proof. by intros s o. Qed.

Lemma blind_read p : stdout_blind (read_bytes p).
Proof. intros s o. unfold read_bytes. cbn [files]. by destruct (files s !! p). Qed.

Lemma blind_copy2 w src dst : stdout_blind (shutil_copy2 w src dst).
Proof. intros s o. unfold shutil_copy2. cbn [files]. by repeat case_match. Qed.

Lemma blind_save w img p exif_bytes quality :
  stdout_blind (img_save w img p exif_bytes quality).
Proof. intros s o. unfold img_save. cbn [files]. by repeat case_match. Qed.

Lemma blind_utime w p a m : stdout_blind (os_utime w p a m).
Proof. intros s o. unfold os_utime. cbn [files]. by repeat case_match. Qed.

Lemma blind_remove w p : stdout_blind (os_remove w p).
Proof. intros s o. unfold os_remove. cbn [files]. by repeat case_match. Qed.

Lemma blind_move w src dst : stdout_blind (shutil_move w src dst).
Proof. intros s o. unfold shutil_move. cbn [files]. by repeat case_match. Qed.

End Primitives.

(* ===================================================================== *)
(** * MetadataWriter: what a call leaves behind                           *)
(* ===================================================================== *)

Section MetadataWriterEffects.

Variable w : world.
Variable image_path : string.
Variable date_taken : datetime.

Ltac step_preserves :=
  first
    [ apply preserves_bind; [|intros ?]
    | apply preserves_try; [|intros ?]
    | apply preserves_ret | apply preserves_print | apply preserves_lift
    | apply preserves_exists | apply preserves_read
    | apply preserves_copy2 | apply preserves_save | apply preserves_utime
    | apply preserves_remove | apply preserves_move
    | (by left) | (by right) ].

Lemma update_image_metadata_preserves :
  preserves_outside (own_paths image_path)
    (update_image_metadata w image_path date_taken).
Proof.
  unfold update_image_metadata, update_body, update_handler.
  apply preserves_bind; [apply preserves_exists|]. intros present.
  destruct (negb present); [repeat step_preserves|]. cbv zeta.
  apply preserves_try.
  - repeat step_preserves.
  - intros e. apply preserves_bind; [apply preserves_print|]. intros _.
    apply preserves_bind; [apply preserves_exists|]. intros has_backup.
    destruct has_backup; repeat step_preserves.
Qed.

Ltac step_blind :=
  first
    [ apply blind_bind; [|intros ?]
    | apply blind_try; [|intros ?]
    | apply blind_ret | apply blind_print | apply blind_lift
    | apply blind_exists | apply blind_read
    | apply blind_copy2 | apply blind_save | apply blind_utime
    | apply blind_remove | apply blind_move ].

Lemma update_image_metadata_blind :
  stdout_blind (update_image_metadata w image_path date_taken).
Proof.
  unfold update_image_metadata, update_body, update_handler.
  apply blind_bind; [apply blind_exists|]. intros present.
  destruct (negb present); [repeat step_blind|]. cbv zeta.
  apply blind_try.
  - repeat step_blind.
  - intros e. apply blind_bind; [apply blind_print|]. intros _.
    apply blind_bind; [apply blind_exists|]. intros has_backup.
    destruct has_backup; repeat step_blind.
Qed.

Lemma update_body_completes s f b s1 :
  files s !! image_path = Some f →
  update_body w image_path (image_path +:+ ".backup") date_taken s = (Ok b, s1) →
  ∃ img d exif_bytes bytes ts,
    Image_open w (content f) = Ok img
    ∧ dated_exif (loaded_exif w (content f))
        (Datetime.strftime date_taken "%Y:%m:%d %H:%M:%S") = Ok d
    ∧ piexif_dump w d = Ok exif_bytes
    ∧ Image_save w img exif_bytes 95 = Ok bytes
    ∧ timestamp w date_taken = Ok ts
    ∧ files s1 = <[image_path := File bytes (recorded_time w ts) (recorded_time w ts)]>
                   (delete (image_path +:+ ".backup") (files s)).
Proof.
  intros Hf. pose proof (append_nonempty_ne image_path ".backup") as Hne.
  assert (image_path +:+ ".backup" ≠ image_path) as Hne' by (by apply Hne).
  clear Hne. revert b s1.
  unfold update_body, shutil_copy2, read_bytes, cmd_lift, try_except, img_save,
    os_utime, os_remove, cmd_print, mbind, cmd_bind, mret, cmd_ret,
    dated_exif, loaded_exif, res_mbind, res_bind.
  cbv zeta.
  repeat (case_match; simplify_map_eq; try done).
  all: intros b s1 [= <- <-]; do 5 eexists; repeat split; try done.
  all: cbn [files]; apply map_eq; intros q;
    destruct (decide (q = image_path)) as [->|];
    [|destruct (decide (q = image_path +:+ ".backup")) as [->|]];
    by simplify_map_eq.
Qed.

(** X1.  A call reads and writes the target and its [.backup] sibling
    only: every other path of the store holds after the call what it
    held before, whatever the outcome. *)
Theorem update_touches_two_paths (s : state) (q : string) :
  q ≠ image_path → q ≠ image_path +:+ ".backup" →
  files (update_image_metadata w image_path date_taken s).2 !! q = files s !! q.
Proof.
  intros Hq Hb. apply update_image_metadata_preserves. by intros [?|?].
Qed.

Lemma update_returns_true s f :
  files s !! image_path = Some f →
  (update_image_metadata w image_path date_taken s).1 = Ok true →
  ∃ s1, update_body w image_path (image_path +:+ ".backup") date_taken s = (Ok true, s1)
        ∧ update_image_metadata w image_path date_taken s = (Ok true, s1).
Proof.
  intros Hf. rewrite (update_image_metadata_present w image_path date_taken s f Hf).
  unfold try_except.
  destruct (update_body w image_path _ date_taken s) as [[b|e0] s1] eqn:E.
  - cbn [fst]. intros [= ->]. by exists s1.
  - pose proof (update_handler_spec w image_path e0 s1) as Hh. cbv zeta in Hh.
    intros Hout. rewrite Hout in Hh.
    destruct (files s1 !! _); [destruct (move_fault w)|];
      first [discriminate Hh | destruct Hh as [Hh' _]; discriminate Hh'].
Qed.

(** X2.  When the call returns [True], the target holds the bytes the
    encoder produced from the opened image and the serialised EXIF block
    at quality 95, its access and modification times are both the time
    the file system records for the timestamp of the date (the timestamp
    itself when it lies in the range of the file system, else the nearer
    bound of the range), the backup path is empty, and the rest of the
    store is as before. *)
Theorem update_success_store (s : state) (f : file) :
  files s !! image_path = Some f →
  (update_image_metadata w image_path date_taken s).1 = Ok true →
  ∃ img d exif_bytes bytes ts,
    Image_open w (content f) = Ok img
    ∧ dated_exif (loaded_exif w (content f))
        (Datetime.strftime date_taken "%Y:%m:%d %H:%M:%S") = Ok d
    ∧ piexif_dump w d = Ok exif_bytes
    ∧ Image_save w img exif_bytes 95 = Ok bytes
    ∧ timestamp w date_taken = Ok ts
    ∧ files (update_image_metadata w image_path date_taken s).2
      = <[image_path := File bytes (recorded_time w ts) (recorded_time w ts)]>
          (delete (image_path +:+ ".backup") (files s))
    ∧ (time_min w ≤ ts ≤ time_max w → recorded_time w ts = ts)
    ∧ (ts < time_min w ≤ time_max w → recorded_time w ts = time_min w)
    ∧ (time_min w ≤ time_max w < ts → recorded_time w ts = time_max w).
Proof.
  intros Hf Hout. destruct (update_returns_true s f Hf Hout) as (s1 & Hbody & ->).
  destruct (update_body_completes s f true s1 Hf Hbody)
    as (img & d & exif_bytes & bytes & ts & ? & ? & ? & ? & ? & ?).
  exists img, d, exif_bytes, bytes, ts. unfold recorded_time.
  repeat (split; [done|]). repeat split; lia.
Qed.

Lemma dated_exif_spec d0 x d :
  dated_exif d0 x = Ok d →
  ∃ g0 ge,
    d0 !! "0th" = Some g0 ∧ d0 !! "Exif" = Some ge
    ∧ d = <["Exif" := <[ExifIFD_DateTimeDigitized := x]>
                        (<[ExifIFD_DateTimeOriginal := x]> ge)]>
            (<["0th" := <[ImageIFD_DateTime := x]> g0]> d0).
Proof.
  unfold dated_exif, exif_set, mbind, res_mbind, res_bind.
  destruct (d0 !! "0th") as [g0|] eqn:E0; [|done].
  rewrite lookup_insert_ne by done.
  destruct (d0 !! "Exif") as [ge|] eqn:Ee; [|done].
  rewrite lookup_insert_eq. intros [= <-]. exists g0, ge.
  by rewrite insert_insert_eq.
Qed.

(** X3.  When the call returns [True], the EXIF block that was serialised
    into the file has the formatted date in exactly three fields, the
    image date and the original and digitised capture dates; every other
    field is the one of the block the update started from, which is the
    decoded block of the file, or the empty block when decoding failed. *)
Theorem update_success_metadata (s : state) (f : file) :
  files s !! image_path = Some f →
  (update_image_metadata w image_path date_taken s).1 = Ok true →
  let exif_date := Datetime.strftime date_taken "%Y:%m:%d %H:%M:%S" in
  ∃ img d exif_bytes bytes,
    piexif_dump w d = Ok exif_bytes
    ∧ Image_save w img exif_bytes 95 = Ok bytes
    ∧ content <$> files (update_image_metadata w image_path date_taken s).2 !! image_path
      = Some bytes
    ∧ exif_get d "0th" ImageIFD_DateTime = Some exif_date
    ∧ exif_get d "Exif" ExifIFD_DateTimeOriginal = Some exif_date
    ∧ exif_get d "Exif" ExifIFD_DateTimeDigitized = Some exif_date
    ∧ ∀ group tag,
        (group, tag) ∉ [("0th", ImageIFD_DateTime); ("Exif", ExifIFD_DateTimeOriginal);
                        ("Exif", ExifIFD_DateTimeDigitized)] →
        exif_get d group tag = exif_get (loaded_exif w (content f)) group tag.
Proof.
  intros Hf Hout exif_date.
  destruct (update_returns_true s f Hf Hout) as (s1 & Hbody & ->).
  destruct (update_body_completes s f true s1 Hf Hbody)
    as (img & d & exif_bytes & bytes & ts & _ & Hd & Hdump & Hsave & _ & Hfiles).
  cbn [snd]. rewrite Hfiles.
  exists img, d, exif_bytes, bytes.
  split; [done|]. split; [done|]. split; [by rewrite lookup_insert_eq|].
  destruct (dated_exif_spec _ _ _ Hd) as (g0 & ge & H0 & He & ->).
  unfold exif_get.
  split; [by simplify_map_eq|]. split; [by simplify_map_eq|]. split; [by simplify_map_eq|].
  intros group tag Hnot.
  rewrite !not_elem_of_cons in Hnot. destruct Hnot as (H1 & H2 & H3 & _).
  destruct (decide (group = "Exif")) as [->|Hg1].
  - rewrite lookup_insert_eq, He. cbn.
    rewrite !lookup_insert_ne by congruence. done.
  - rewrite lookup_insert_ne by done.
    destruct (decide (group = "0th")) as [->|Hg2].
    + rewrite lookup_insert_eq, H0. cbn. rewrite lookup_insert_ne by congruence. done.
    + by rewrite lookup_insert_ne.
Qed.

(** X4.  When the copy to the backup path itself fails, the handler still
    moves whatever lies at the backup path over the target: the partial
    copy if the failed copy left one, else a backup file that was there
    before the call; only when the backup path is empty does the target
    keep its content.  The call returns [False] and the backup path ends
    empty. *)
Theorem failed_copy_moves_leftover (s : state) (f : file) (e : exn)
    (partial : option file) :
  files s !! image_path = Some f →
  copy2_fault w = Some (e, partial) →
  move_fault w = None →
  let out := update_image_metadata w image_path date_taken s in
  out.1 = Ok false
  ∧ files out.2 !! (image_path +:+ ".backup") = None
  ∧ files out.2 !! image_path
    = Some (match partial, files s !! (image_path +:+ ".backup") with
            | Some g, _ => g
            | None, Some g => g
            | None, None => f
            end).
Proof.
  intros Hf Hc Hm.
  assert (image_path +:+ ".backup" ≠ image_path) as Hne by (by apply append_nonempty_ne).
  cbv zeta. rewrite (update_image_metadata_present w image_path date_taken s f Hf).
  unfold try_except, update_body, shutil_copy2.
  unfold mbind at 1, cmd_bind at 1. rewrite Hc.
  unfold update_handler, os_path_exists, path_exists, shutil_move, cmd_print,
    mbind, cmd_bind, mret, cmd_ret.
  rewrite Hm.
  destruct partial as [g|]; cbn [files].
  - rewrite bool_decide_true by (rewrite lookup_insert_eq; by eexists).
    cbn [files]. rewrite lookup_insert_eq. cbn [fst snd files].
    by rewrite lookup_insert_eq, lookup_insert_ne, lookup_delete_eq.
  - destruct (files s !! (image_path +:+ ".backup")) as [g|] eqn:Eb.
    + rewrite bool_decide_true by (by eexists). cbn [files]. rewrite Eb.
      cbn [fst snd files].
      by rewrite lookup_insert_eq, lookup_insert_ne, lookup_delete_eq.
    + rewrite bool_decide_false by (by intros [? ?]). cbn [fst snd files]. done.
Qed.

End MetadataWriterEffects.

(* ===================================================================== *)
(** * DateParser: the display format and what is refused                  *)
(* ===================================================================== *)

Section DateParserMore.
Import Re.

Lemma first_match_blank_before c rest :
  Chars.is_space c = false →
  first_match (Plus Chars.is_space) (String " " (String c rest)) ([], " ", String c rest).
Proof.
  intros H. exists []. cbn [run plus_matches].
  change (Chars.is_space " ") with true. cbv iota. by rewrite H.
Qed.

Ltac each_month m Hm :=
  assert (m = 1 ∨ m = 2 ∨ m = 3 ∨ m = 4 ∨ m = 5 ∨ m = 6 ∨ m = 7 ∨ m = 8 ∨ m = 9
          ∨ m = 10 ∨ m = 11 ∨ m = 12)%nat
    as [->|[->|[->|[->|[->|[->|[->|[->|[->|[->|[->| ->]]]]]]]]]]] by lia.

Lemma first_match_b (m : nat) rest :
  (1 ≤ m ≤ 12)%nat →
  first_match (entry "b") (month_name m +:+ rest) ([("b", month_name m)], month_name m, rest).
Proof.
  intros Hm. unfold first_match. each_month m Hm; vm_compute; eexists; reflexivity.
Qed.

Ltac each_hour h Hh :=
  assert (h = 1 ∨ h = 2 ∨ h = 3 ∨ h = 4 ∨ h = 5 ∨ h = 6 ∨ h = 7 ∨ h = 8 ∨ h = 9
          ∨ h = 10 ∨ h = 11 ∨ h = 12)
    as [->|[->|[->|[->|[->|[->|[->|[->|[->|[->|[->| ->]]]]]]]]]]] by lia.

Lemma first_match_I h padded rest :
  1 ≤ h ≤ 12 →
  first_match (entry "I") (hour_text h padded +:+ String ":" rest)
    ([("I", hour_text h padded)], hour_text h padded, String ":" rest).
Proof.
  intros Hh. unfold first_match.
  each_hour h Hh; destruct padded; vm_compute; eexists; reflexivity.
Qed.

Lemma first_match_blank_hour h padded rest :
  1 ≤ h ≤ 12 →
  first_match (Plus Chars.is_space) (String " " (hour_text h padded +:+ rest))
    ([], " ", hour_text h padded +:+ rest).
Proof.
  intros Hh. each_hour h Hh; destruct padded; by apply first_match_blank_before.
Qed.

Lemma int_hour_text h padded : 1 ≤ h ≤ 12 → Strptime.int (hour_text h padded) = h.
Proof. intros Hh. each_hour h Hh; by destruct padded. Qed.

Lemma first_match_p pm :
  first_match (entry "p") (meridiem pm) ([("p", meridiem pm)], meridiem pm, EmptyString).
Proof. unfold first_match. destruct pm; vm_compute; eexists; reflexivity. Qed.

Lemma first_match_blank_meridiem pm :
  first_match (Plus Chars.is_space) (String " " (meridiem pm)) ([], " ", meridiem pm).
Proof. destruct pm; by apply first_match_blank_before. Qed.

Lemma pattern_display_format :
  Strptime.pattern "%b %d, %Y %I:%M %p"
  = Some (Seq (entry "b") (Seq (Plus Chars.is_space) (Seq (entry "d") (Seq (Lit ",")
      (Seq (Plus Chars.is_space) (Seq (entry "Y") (Seq (Plus Chars.is_space)
        (Seq (entry "I") (Seq (Lit ":") (Seq (entry "M") (Seq (Plus Chars.is_space)
          (Seq (entry "p") Eps)))))))))))).
Proof. reflexivity. Qed.

(** The walk over the group dictionary of the display format. *)
Lemma convert_display_groups (m : nat) vd vY vI vM pm :
  (1 ≤ m ≤ 12)%nat →
  let found_dict := [("b", month_name m); ("d", vd); ("Y", vY); ("I", vI); ("M", vM);
                     ("p", meridiem pm)] in
  fold_left (Strptime.step found_dict) found_dict (Ok Strptime.init)
  = Ok (Strptime.mkf (Some (Strptime.int vY)) (Z.of_nat m) (Strptime.int vd)
          (if pm
           then (if Strptime.int vI =? 12 then Strptime.int vI else Strptime.int vI + 12)
           else (if Strptime.int vI =? 12 then 0 else Strptime.int vI))
          (Strptime.int vM) 0).
Proof. intros Hm. each_month m Hm; destruct pm; reflexivity. Qed.

(** A text that does not start with a digit is not in the machine format. *)
Lemma strptime_exif_not_digit c rest :
  Chars.is_digit c = false →
  Strptime.strptime (String c rest) exif_format = Raise ValueError.
Proof.
  intros H. unfold Strptime.strptime, Strptime._strptime.
  rewrite pattern_exif_format.
  change (entry "Y") with (Group "Y" (Seq d (Seq d (Seq d d)))).
  unfold d. cbn [run]. rewrite H. reflexivity.
Qed.

Lemma month_name_not_digit (m : nat) rest :
  (1 ≤ m ≤ 12)%nat →
  ∃ c rest', month_name m +:+ rest = String c rest' ∧ Chars.is_digit c = false.
Proof. intros Hm. each_month m Hm; by eexists _, _. Qed.

Lemma strptime_display_text (m : nat) d1 d2 y1 y2 y3 y4 h padded mi1 mi2 pm :
  (1 ≤ m ≤ 12)%nat →
  Forall is_digit_value [d1; d2; y1; y2; y3; y4; mi1; mi2] →
  1 ≤ number2 d1 d2 ≤ 31 → 1 ≤ h ≤ 12 → number2 mi1 mi2 ≤ 59 →
  Strptime._strptime (display_text m d1 d2 y1 y2 y3 y4 h padded mi1 mi2 pm)
    "%b %d, %Y %I:%M %p"
  = Ok (Strptime.mkf (Some (number4 y1 y2 y3 y4)) (Z.of_nat m) (number2 d1 d2)
          (hour24 h pm) (number2 mi1 mi2) 0).
Proof.
  intros Hm Hd Hday Hh Hmi.
  repeat match goal with
         | H : Forall _ (_ :: _) |- _ => apply Forall_cons in H as [? H]
         end.
  assert (first_match
            (Seq (entry "b") (Seq (Plus Chars.is_space) (Seq (entry "d") (Seq (Lit ",")
               (Seq (Plus Chars.is_space) (Seq (entry "Y") (Seq (Plus Chars.is_space)
                  (Seq (entry "I") (Seq (Lit ":") (Seq (entry "M")
                     (Seq (Plus Chars.is_space) (Seq (entry "p") Eps))))))))))))
            (display_text m d1 d2 y1 y2 y3 y4 h padded mi1 mi2 pm)
            ([("b", month_name m); ("d", two d1 d2); ("Y", four y1 y2 y3 y4);
              ("I", hour_text h padded); ("M", two mi1 mi2); ("p", meridiem pm)],
             display_text m d1 d2 y1 y2 y3 y4 h padded mi1 mi2 pm, EmptyString))
    as [t Ht].
  { eapply first_match_eq.
    - unfold display_text.
      eapply first_match_Seq; [by apply first_match_b|].
      eapply first_match_Seq; [by apply (first_match_blank d1)|].
      eapply first_match_Seq; [by apply first_match_d|].
      eapply first_match_Seq; [by apply first_match_Lit|].
      eapply first_match_Seq; [by apply (first_match_blank y1)|].
      eapply first_match_Seq; [by apply first_match_Y|].
      eapply first_match_Seq; [by apply first_match_blank_hour|].
      eapply first_match_Seq; [by apply first_match_I|].
      eapply first_match_Seq; [by apply first_match_Lit|].
      eapply first_match_Seq; [by apply first_match_M|].
      eapply first_match_Seq; [by apply first_match_blank_meridiem|].
      eapply first_match_Seq; [by apply first_match_p|].
      apply first_match_Eps.
    - unfold display_text. destruct pm; each_month m Hm; reflexivity. }
  unfold Strptime._strptime. rewrite pattern_display_format, Ht.
  cbv beta iota. rewrite convert_display_groups by done.
  rewrite int_four, !int_two, int_hour_text by assumption.
  unfold hour24. each_hour h Hh; by destruct pm.
Qed.

(** X5.  A text [Mon DD, YYYY H:MM am/pm] with an English month
    abbreviation, a two-digit day, a four-digit year, an hour from 1 to
    12 with or without a leading zero, and two-digit minutes, whose
    fields form a valid date, parses to that date with the hour of the
    day of the twelve-hour reading (12 am is 0, 12 pm is 12) and 0
    seconds. *)
Theorem display_format_parses (m : nat) (d1 d2 y1 y2 y3 y4 h : Z) (padded : bool)
    (mi1 mi2 : Z) (pm : bool) :
  (1 ≤ m ≤ 12)%nat →
  Forall is_digit_value [d1; d2; y1; y2; y3; y4; mi1; mi2] →
  1 ≤ h ≤ 12 →
  Datetime.valid (number4 y1 y2 y3 y4) (Z.of_nat m) (number2 d1 d2)
                 (hour24 h pm) (number2 mi1 mi2) 0 = true →
  parse_instagram_date (display_text m d1 d2 y1 y2 y3 y4 h padded mi1 mi2 pm)
  = Ok (Some (mkdt (number4 y1 y2 y3 y4) (Z.of_nat m) (number2 d1 d2)
                   (hour24 h pm) (number2 mi1 mi2) 0)).
Proof.
  intros Hm Hd Hh Hv.
  pose proof (valid_ranges _ _ _ _ _ _ Hv) as (? & ? & ? & ? & ?).
  unfold parse_instagram_date, try_except_ValueError.
  destruct (month_name_not_digit m
              (" " +:+ two d1 d2 +:+ ", " +:+ four y1 y2 y3 y4 +:+ " "
               +:+ hour_text h padded +:+ ":" +:+ two mi1 mi2 +:+ " " +:+ meridiem pm) Hm)
    as (c & rest' & Htext & Hc).
  fold (display_text m d1 d2 y1 y2 y3 y4 h padded mi1 mi2 pm) in Htext.
  fold exif_format. rewrite Htext at 1. rewrite (strptime_exif_not_digit c rest' Hc).
  unfold Strptime.strptime.
  rewrite strptime_display_text by (assumption || lia).
  unfold res_bind, Datetime.new.
  cbn [from_option id Strptime.f_year Strptime.f_month Strptime.f_day
       Strptime.f_hour Strptime.f_minute Strptime.f_second].
  by rewrite Hv.
Qed.

Lemma strptime_well_formed data_string fmt d :
  Strptime.strptime data_string fmt = Ok d → well_formed d.
Proof.
  unfold Strptime.strptime, res_bind, Datetime.new.
  destruct (Strptime._strptime data_string fmt) as [f|]; [|done].
  destruct (Datetime.valid _ _ _ _ _ _) eqn:E; [|done]. by intros [= <-].
Qed.

Lemma parse_instagram_date_well_formed date_str d :
  parse_instagram_date date_str = Ok (Some d) → well_formed d.
Proof.
  unfold parse_instagram_date, try_except_ValueError.
  destruct (Strptime.strptime date_str "%Y:%m:%d %H:%M:%S") as [d1|e1] eqn:E1.
  - intros [= <-]. by eapply strptime_well_formed.
  - destruct e1; try done.
    destruct (Strptime.strptime date_str "%b %d, %Y %I:%M %p") as [d2|e2] eqn:E2.
    + intros [= <-]. by eapply strptime_well_formed.
    + by destruct e2.
Qed.

Lemma is_digit_cases c :
  Chars.is_digit c = true → ∃ n, is_digit_value n ∧ c = Chars.digit_char n.
Proof.
  destruct c as [[] [] [] [] [] [] [] []]; intros H; try discriminate H;
    first [ exists 0; split; [unfold is_digit_value; lia | reflexivity]
          | exists 1; split; [unfold is_digit_value; lia | reflexivity]
          | exists 2; split; [unfold is_digit_value; lia | reflexivity]
          | exists 3; split; [unfold is_digit_value; lia | reflexivity]
          | exists 4; split; [unfold is_digit_value; lia | reflexivity]
          | exists 5; split; [unfold is_digit_value; lia | reflexivity]
          | exists 6; split; [unfold is_digit_value; lia | reflexivity]
          | exists 7; split; [unfold is_digit_value; lia | reflexivity]
          | exists 8; split; [unfold is_digit_value; lia | reflexivity]
          | exists 9; split; [unfold is_digit_value; lia | reflexivity] ].
Qed.

(** A text that starts with a digit is not in the display format. *)
Lemma strptime_display_digit c rest :
  Chars.is_digit c = true →
  Strptime.strptime (String c rest) "%b %d, %Y %I:%M %p" = Raise ValueError.
Proof.
  intros (n & Hn & ->)%is_digit_cases.
  unfold Strptime.strptime, Strptime._strptime. rewrite pattern_display_format.
  assert (run (entry "b") (String (Chars.digit_char n) rest) = []) as Hb.
  { destruct (digit_value_cases n Hn)
      as [->|[->|[->|[->|[->|[->|[->|[->|[->| ->]]]]]]]]]; reflexivity. }
  cbn [run]. rewrite Hb. reflexivity.
Qed.

Lemma strptime_exif_starts_with_digit s d :
  Strptime.strptime s exif_format = Ok d →
  ∃ c rest, s = String c rest ∧ Chars.is_digit c = true.
Proof.
  destruct s as [|c rest]; [by vm_compute|].
  destruct (Chars.is_digit c) eqn:E; [by eexists _, _|].
  by rewrite strptime_exif_not_digit.
Qed.

(** X6.  No text is accepted by both formats, so the order of the two
    attempts is immaterial: trying the display format first gives the
    same result on every string. *)
Theorem parse_order_immaterial (date_str : string) :
  parse_instagram_date date_str = parse_display_first date_str.
Proof.
  unfold parse_instagram_date, parse_display_first, try_except_ValueError.
  fold exif_format.
  destruct (Strptime.strptime date_str exif_format) as [d|e] eqn:E1.
  - destruct (strptime_exif_starts_with_digit _ _ E1) as (c & rest & -> & Hc).
    by rewrite strptime_display_digit.
  - rewrite (strptime_raises _ _ _ E1).
    destruct (Strptime.strptime date_str "%b %d, %Y %I:%M %p") as [d|e'] eqn:E2; [done|].
    by rewrite (strptime_raises _ _ _ E2).
Qed.

Lemma first_match_machine_text y1 y2 y3 y4 mo1 mo2 d1 d2 h1 h2 mi1 mi2 s1 s2 x :
  Forall is_digit_value [y1; y2; y3; y4; mo1; mo2; d1; d2; h1; h2; mi1; mi2; s1; s2] →
  1 ≤ number2 mo1 mo2 ≤ 12 → 1 ≤ number2 d1 d2 ≤ 31 → number2 h1 h2 ≤ 23 →
  number2 mi1 mi2 ≤ 59 → number2 s1 s2 ≤ 59 →
  ∃ found_dict,
    first_match
      (Seq (entry "Y") (Seq (Lit ":") (Seq (entry "m") (Seq (Lit ":") (Seq (entry "d")
         (Seq (Plus Chars.is_space)
            (Seq (entry "H") (Seq (Lit ":") (Seq (entry "M") (Seq (Lit ":")
               (Seq (entry "S") Eps)))))))))))
      (machine_text y1 y2 y3 y4 mo1 mo2 d1 d2 h1 h2 mi1 mi2 s1 s2 +:+ x)
      (found_dict, machine_text y1 y2 y3 y4 mo1 mo2 d1 d2 h1 h2 mi1 mi2 s1 s2, x).
Proof.
  intros Hd Hmo Hday Hh Hmi Hs.
  repeat match goal with
         | H : Forall _ (_ :: _) |- _ => apply Forall_cons in H as [? H]
         end.
  eexists. eapply first_match_eq.
  - change (machine_text y1 y2 y3 y4 mo1 mo2 d1 d2 h1 h2 mi1 mi2 s1 s2 +:+ x)
      with (four y1 y2 y3 y4 +:+ ":" +:+ two mo1 mo2 +:+ ":" +:+ two d1 d2 +:+ " "
            +:+ two h1 h2 +:+ ":" +:+ two mi1 mi2 +:+ ":" +:+ two s1 s2 +:+ x).
    eapply first_match_Seq; [by apply first_match_Y|].
    eapply first_match_Seq; [by apply first_match_Lit|].
    eapply first_match_Seq; [by apply first_match_m|].
    eapply first_match_Seq; [by apply first_match_Lit|].
    eapply first_match_Seq; [by apply first_match_d|].
    eapply first_match_Seq; [by apply (first_match_blank h1)|].
    eapply first_match_Seq; [by apply first_match_H|].
    eapply first_match_Seq; [by apply first_match_Lit|].
    eapply first_match_Seq; [by apply first_match_M|].
    eapply first_match_Seq; [by apply first_match_Lit|].
    eapply first_match_Seq;
      [apply first_match_S; first [assumption | unfold number2 in *; lia]|].
    apply first_match_Eps.
  - reflexivity.
Qed.

(** X7.  A machine-format text followed by anything at all is refused:
    the match must cover the whole string, so a well-formed date with
    trailing characters gives [None]. *)
Theorem trailing_text_is_refused (y1 y2 y3 y4 mo1 mo2 d1 d2 h1 h2 mi1 mi2 s1 s2 : Z)
    (x : string) :
  Forall is_digit_value [y1; y2; y3; y4; mo1; mo2; d1; d2; h1; h2; mi1; mi2; s1; s2] →
  1 ≤ number2 mo1 mo2 ≤ 12 → 1 ≤ number2 d1 d2 ≤ 31 → number2 h1 h2 ≤ 23 →
  number2 mi1 mi2 ≤ 59 → number2 s1 s2 ≤ 59 →
  x ≠ EmptyString →
  parse_instagram_date (machine_text y1 y2 y3 y4 mo1 mo2 d1 d2 h1 h2 mi1 mi2 s1 s2 +:+ x)
  = Ok None.
Proof.
  intros Hd Hmo Hday Hh Hmi Hs Hx.
  destruct (first_match_machine_text _ _ _ _ _ _ _ _ _ _ _ _ _ _ x Hd Hmo Hday Hh Hmi Hs)
    as (found_dict & t & Ht).
  apply Forall_cons in Hd as [Hy1 _].
  unfold parse_instagram_date, try_except_ValueError. fold exif_format.
  assert (Strptime.strptime
            (machine_text y1 y2 y3 y4 mo1 mo2 d1 d2 h1 h2 mi1 mi2 s1 s2 +:+ x) exif_format
          = Raise ValueError) as ->.
  { unfold Strptime.strptime, Strptime._strptime. rewrite pattern_exif_format, Ht.
    by destruct x. }
  change (machine_text y1 y2 y3 y4 mo1 mo2 d1 d2 h1 h2 mi1 mi2 s1 s2 +:+ x)
    with (String (Chars.digit_char y1)
            (String (Chars.digit_char y2) (two y3 y4) +:+ ":" +:+ two mo1 mo2 +:+ ":"
             +:+ two d1 d2 +:+ " " +:+ two h1 h2 +:+ ":" +:+ two mi1 mi2 +:+ ":"
             +:+ two s1 s2 +:+ x)).
  by rewrite strptime_display_digit by (by apply is_digit_digit_char).
Qed.

Lemma plus_matches_cons p c s :
  plus_matches p (String c s)
  = if p c
    then map (λ mr, (String c mr.1, mr.2)) (plus_matches p s) ++ [(String c EmptyString, s)]
    else [].
Proof. reflexivity. Qed.

Lemma plus_matches_run sep c rest :
  sep ≠ EmptyString → all_space sep = true → Chars.is_space c = false →
  ∃ t, plus_matches Chars.is_space (sep +:+ String c rest) = (sep, String c rest) :: t.
Proof.
  induction sep as [|a sep IH]; [done|]. intros _ [Ha Hsep]%andb_true_iff Hc.
  change (String a sep +:+ String c rest) with (String a (sep +:+ String c rest)).
  rewrite plus_matches_cons, Ha.
  destruct sep as [|b sep].
  - change (EmptyString +:+ String c rest) with (String c rest).
    rewrite plus_matches_cons, Hc. by eexists.
  - destruct (IH ltac:(done) Hsep Hc) as [t ->]. by eexists.
Qed.

Lemma first_match_run sep c rest :
  sep ≠ EmptyString → all_space sep = true → Chars.is_space c = false →
  first_match (Plus Chars.is_space) (sep +:+ String c rest) ([], sep, String c rest).
Proof.
  intros H1 H2 H3. destruct (plus_matches_run sep c rest H1 H2 H3) as [t Ht].
  unfold first_match. cbn [run]. rewrite Ht. by eexists.
Qed.

(** X8.  Between the date and the time the machine format takes any
    non-empty run of white space, not only one blank: such a text parses
    to the same timestamp. *)
Theorem any_white_space_separates (y1 y2 y3 y4 mo1 mo2 d1 d2 : Z) (sep : string)
    (h1 h2 mi1 mi2 s1 s2 : Z) :
  Forall is_digit_value [y1; y2; y3; y4; mo1; mo2; d1; d2; h1; h2; mi1; mi2; s1; s2] →
  Datetime.valid (number4 y1 y2 y3 y4) (number2 mo1 mo2) (number2 d1 d2)
                 (number2 h1 h2) (number2 mi1 mi2) (number2 s1 s2) = true →
  sep ≠ EmptyString → all_space sep = true →
  parse_instagram_date (machine_text_sep y1 y2 y3 y4 mo1 mo2 d1 d2 sep h1 h2 mi1 mi2 s1 s2)
  = Ok (Some (mkdt (number4 y1 y2 y3 y4) (number2 mo1 mo2) (number2 d1 d2)
                   (number2 h1 h2) (number2 mi1 mi2) (number2 s1 s2))).
Proof.
  intros Hd Hv Hsep Hall.
  pose proof (valid_ranges _ _ _ _ _ _ Hv) as (? & ? & ? & ? & ?).
  repeat match goal with
         | H : Forall _ (_ :: _) |- _ => apply Forall_cons in H as [? H]
         end.
  assert (first_match
            (Seq (entry "Y") (Seq (Lit ":") (Seq (entry "m") (Seq (Lit ":") (Seq (entry "d")
               (Seq (Plus Chars.is_space)
                  (Seq (entry "H") (Seq (Lit ":") (Seq (entry "M") (Seq (Lit ":")
                     (Seq (entry "S") Eps)))))))))))
            (machine_text_sep y1 y2 y3 y4 mo1 mo2 d1 d2 sep h1 h2 mi1 mi2 s1 s2)
            ([("Y", four y1 y2 y3 y4); ("m", two mo1 mo2); ("d", two d1 d2);
              ("H", two h1 h2); ("M", two mi1 mi2); ("S", two s1 s2)],
             four y1 y2 y3 y4 +:+ ":" +:+ two mo1 mo2 +:+ ":" +:+ two d1 d2 +:+ sep
             +:+ two h1 h2 +:+ ":" +:+ two mi1 mi2 +:+ ":" +:+ two s1 s2 +:+ EmptyString,
             EmptyString)) as [t Ht].
  { eapply first_match_eq.
    - unfold machine_text_sep.
      eapply first_match_Seq; [by apply first_match_Y|].
      eapply first_match_Seq; [by apply first_match_Lit|].
      eapply first_match_Seq; [by apply first_match_m|].
      eapply first_match_Seq; [by apply first_match_Lit|].
      eapply first_match_Seq; [by apply first_match_d|].
      eapply first_match_Seq;
        [apply (first_match_run sep (Chars.digit_char h1)
                  (String (Chars.digit_char h2)
                     (":" +:+ two mi1 mi2 +:+ ":" +:+ two s1 s2)));
         try done; by apply is_space_digit_char|].
      lazymatch goal with
      | |- first_match ?r (String _ (String _ ?x)) ?f =>
          change (first_match r (two h1 h2 +:+ x) f)
      end.
      eapply first_match_Seq; [apply (first_match_H h1 h2); first [assumption | unfold number2 in *; lia]|].
      eapply first_match_Seq; [by apply first_match_Lit|].
      eapply first_match_Seq; [apply (first_match_M mi1 mi2); first [assumption | unfold number2 in *; lia]|].
      eapply first_match_Seq; [by apply first_match_Lit|].
      eapply first_match_Seq; [apply (first_match_S s1 s2 EmptyString); first [assumption | unfold number2 in *; lia]|].
      apply first_match_Eps.
    - reflexivity. }
  unfold parse_instagram_date, try_except_ValueError, Strptime.strptime,
    Strptime._strptime.
  fold exif_format. rewrite pattern_exif_format, Ht.
  cbv beta iota. rewrite convert_exif_groups.
  rewrite int_four, !int_two by assumption.
  unfold res_bind, Datetime.new.
  cbn [from_option id Strptime.f_year Strptime.f_month Strptime.f_day
       Strptime.f_hour Strptime.f_minute Strptime.f_second].
  by rewrite Hv.
Qed.

(** X9.  A machine-format text whose fields the pattern of the format
    accepts (month 01 to 12, day 01 to 31, hour up to 23, minute up to 59,
    second up to 61) but which names no date and time of the calendar (a
    day the month does not have in that year, the year 0000, a second 60
    or 61) is refused: [parse_instagram_date] gives [None]; it neither
    raises nor moves the value to a neighbouring date. *)
Theorem impossible_date_is_refused (y1 y2 y3 y4 mo1 mo2 d1 d2 h1 h2 mi1 mi2 s1 s2 : Z) :
  Forall is_digit_value [y1; y2; y3; y4; mo1; mo2; d1; d2; h1; h2; mi1; mi2; s1; s2] →
  1 ≤ number2 mo1 mo2 ≤ 12 → 1 ≤ number2 d1 d2 ≤ 31 → number2 h1 h2 ≤ 23 →
  number2 mi1 mi2 ≤ 59 → number2 s1 s2 ≤ 61 →
  Datetime.valid (number4 y1 y2 y3 y4) (number2 mo1 mo2) (number2 d1 d2)
                 (number2 h1 h2) (number2 mi1 mi2) (number2 s1 s2) = false →
  parse_instagram_date (machine_text y1 y2 y3 y4 mo1 mo2 d1 d2 h1 h2 mi1 mi2 s1 s2)
  = Ok None.
Proof.
  intros Hd Hmo Hday Hh Hmi Hs Hv.
  unfold parse_instagram_date, try_except_ValueError. fold exif_format.
  assert (Strptime.strptime
            (machine_text y1 y2 y3 y4 mo1 mo2 d1 d2 h1 h2 mi1 mi2 s1 s2) exif_format
          = Raise ValueError) as ->.
  { unfold Strptime.strptime. rewrite strptime_machine_text by assumption.
    unfold res_bind, Datetime.new.
    cbn [from_option id Strptime.f_year Strptime.f_month Strptime.f_day
         Strptime.f_hour Strptime.f_minute Strptime.f_second].
    by rewrite Hv. }
  apply Forall_cons in Hd as [Hy1 _].
  change (machine_text y1 y2 y3 y4 mo1 mo2 d1 d2 h1 h2 mi1 mi2 s1 s2)
    with (String (Chars.digit_char y1)
            (String (Chars.digit_char y2) (two y3 y4) +:+ ":" +:+ two mo1 mo2 +:+ ":"
             +:+ two d1 d2 +:+ " " +:+ two h1 h2 +:+ ":" +:+ two mi1 mi2 +:+ ":"
             +:+ two s1 s2)).
  by rewrite strptime_display_digit by (by apply is_digit_digit_char).
Qed.

End DateParserMore.

(* ===================================================================== *)
(** * RecordLocator and PathResolver: what the records are                *)
(* ===================================================================== *)

Section Records.

Lemma post_table_date_well_formed rows d :
  post_table_date rows = Ok (Some d) → well_formed d.
Proof.
  induction rows as [|row rows IH]; [done|]. cbn [post_table_date].
  repeat match goal with
         | |- context [match ?x with _ => _ end] => destruct x
         end; try exact IH.
  apply parse_instagram_date_well_formed.
Qed.

Lemma post_date_well_formed post d : post_date post = Ok (Some d) → well_formed d.
Proof.
  unfold post_date, post_display_date, mbind, res_mbind, res_bind.
  destruct (Bs4.find "div" (Some display_date_class) post) as [dd|].
  - destruct (parse_instagram_date (Bs4.get_text dd)) as [[d'|]|] eqn:E; [| |done].
    + intros [= <-]. by eapply parse_instagram_date_well_formed.
    + apply post_table_date_well_formed.
  - apply post_table_date_well_formed.
Qed.

Lemma contribution_length fs stat_error html_file_path post recs :
  contribution fs stat_error html_file_path post = Ok recs → (length recs ≤ 1)%nat.
Proof.
  unfold contribution, mbind, res_mbind, res_bind.
  repeat match goal with
         | |- context [match ?x with _ => _ end] => destruct x
         end; intros [= <-]; cbn [length]; lia.
Qed.

Lemma contributions_length fs stat_error html_file_path posts per_post :
  contributions fs stat_error html_file_path posts = Ok per_post →
  (length (concat per_post) ≤ length posts)%nat.
Proof.
  revert per_post. induction posts as [|post posts IH]; intros per_post;
    cbn [contributions].
  - by intros [= <-].
  - unfold mbind, res_mbind, res_bind.
    destruct (contribution _ _ _ post) as [new|] eqn:E; [|done].
    destruct (contributions _ _ _ posts) as [rest|]; [|done].
    intros [= <-]. cbn [concat length]. rewrite length_app.
    pose proof (contribution_length _ _ _ _ _ E). pose proof (IH rest eq_refl). lia.
Qed.

Lemma contributions_raises fs stat_error html_file_path posts e :
  contributions fs stat_error html_file_path posts = Raise e →
  e = OSError ∧ ∃ p, stat_error p = true.
Proof.
  induction posts as [|post posts IH]; cbn [contributions]; [done|].
  unfold mbind, res_mbind, res_bind.
  destruct (contribution _ _ _ post) as [new|e'] eqn:E.
  - destruct (contributions _ _ _ posts) as [rest|e']; [done|].
    intros [= <-]. by apply IH.
  - intros [= <-]. by eapply contribution_raises.
Qed.

Lemma contribution_resolved fs stat_error html_file_path post recs rec :
  contribution fs stat_error html_file_path post = Ok recs → rec ∈ recs →
  path_exists fs rec.1 = true ∧ stat_error rec.1 = false ∧ well_formed rec.2.
Proof.
  unfold contribution.
  destruct (post_img_src post) as [img_path|]; [|by intros [= <-] ?%elem_of_nil].
  destruct (post_date post) as [[d|]|] eqn:Ed; try by intros [= <-] ?%elem_of_nil.
  unfold resolved_path, Path_exists, mbind, res_mbind, res_bind.
  destruct (Py.index _ _) as [i|]; [|by intros [= <-] ?%elem_of_nil]. cbv zeta.
  destruct (stat_error _) eqn:Es; [done|].
  destruct (path_exists fs _) eqn:Ex; [|by intros [= <-] ?%elem_of_nil].
  intros [= <-] ->%list_elem_of_singleton. cbn [fst snd].
  split; [done|]. split; [done|]. by eapply post_date_well_formed.
Qed.

Lemma contributions_resolved fs stat_error html_file_path posts per_post rec :
  contributions fs stat_error html_file_path posts = Ok per_post →
  rec ∈ concat per_post →
  path_exists fs rec.1 = true ∧ stat_error rec.1 = false ∧ well_formed rec.2.
Proof.
  revert per_post. induction posts as [|post posts IH]; intros per_post;
    cbn [contributions].
  - by intros [= <-] ?%elem_of_nil.
  - unfold mbind, res_mbind, res_bind.
    destruct (contribution _ _ _ post) as [new|] eqn:E; [|done].
    destruct (contributions _ _ _ posts) as [rest|]; [|done].
    intros [= <-]. cbn [concat]. intros [Hin|Hin]%elem_of_app.
    + by eapply contribution_resolved.
    + by eapply IH.
Qed.

(** X10.  When [find_images_in_html] returns, it returns at most one
    record for each post container, and every record names a path that
    exists in the store, on which the status call did not fail, and
    carries a valid calendar date and time.  The only exception that
    leaves it is the [OSError] of a failed status call. *)
Theorem find_images_in_html_records (fs : store) (stat_error : string → bool)
    (soup : PageElement) (html_file_path : string) (debug : bool) :
  match result (find_images_in_html fs stat_error soup html_file_path debug) with
  | Ok recs =>
      (length recs ≤ length (Bs4.find_all "div" (Some post_class) soup))%nat
      ∧ ∀ rec, rec ∈ recs →
          path_exists fs rec.1 = true ∧ stat_error rec.1 = false ∧ well_formed rec.2
  | Raise e => e = OSError ∧ ∃ p, stat_error p = true
  end.
Proof.
  rewrite find_images_in_html_result. unfold mbind, res_mbind, res_bind.
  destruct (contributions _ _ _ _) as [per_post|e] eqn:E;
    [|by eapply contributions_raises].
  split; [by eapply contributions_length|].
  intros rec Hin. by eapply contributions_resolved.
Qed.

(** X11.  [find_date_in_html] gives a document the date the per-post
    lookup of [find_images_in_html] gives a post container: the display
    date of its first display-date block when that parses, else the value
    of its first [Date taken] row with a non-empty value. *)
Theorem find_date_in_html_is_post_date (soup : PageElement) (debug : bool) :
  result (find_date_in_html soup debug) = post_date soup.
Proof. apply find_date_in_html_result. Qed.

Lemma index_present x l : x ∈ l → ∃ i, Py.index x l = Some i.
Proof.
  induction l as [|y l IH]; [by intros ?%elem_of_nil|].
  cbn [Py.index]. destruct (String.eqb y x) eqn:E; [by eexists|].
  intros [->|Hin]%elem_of_cons; [by rewrite String.eqb_refl in E|].
  destruct (IH Hin) as [i ->]. by eexists.
Qed.

Lemma parts_absolute r : Pathlib.is_absolute (Pathlib.parts (String "/" r)) = true.
Proof.
  unfold Pathlib.parts, Pathlib.root_of.
  destruct r as [|c2 [|c3 r]]; cbn [Ascii.eqb Bool.eqb];
    repeat match goal with
           | |- context [Ascii.eqb ?c "/"] => destruct (Ascii.eqb c "/")
           end; done.
Qed.

(** X12.  A media reference that starts with a slash is not placed under
    the export root: whenever the document path has the marker segment,
    the path that is checked is the reference's own normalised path; a
    failed status call on it is raised, and else the record names that
    path and is emitted exactly when the path exists. *)
Theorem absolute_reference_ignores_root (fs : store) (stat_error : string → bool)
    (html_file_path : string) (debug : bool) (post : PageElement) (r : string)
    (d : datetime) :
  post_img_src post = Some (String "/" r) →
  post_date post = Ok (Some d) →
  marker ∈ Pathlib.parts html_file_path →
  let full_path := Pathlib.str (Pathlib.parts (String "/" r)) in
  result (post_records fs stat_error html_file_path debug post)
  = if stat_error full_path then Raise OSError
    else Ok (if path_exists fs full_path then [(full_path, d)] else []).
Proof.
  intros Hsrc Hd Hm. rewrite post_records_contribution. unfold contribution.
  rewrite Hsrc, Hd. unfold resolved_path.
  destruct (index_present _ _ Hm) as [i ->]. cbv zeta.
  unfold Pathlib.joinpath. rewrite parts_absolute.
  unfold Path_exists, mbind, res_mbind, res_bind.
  destruct (stat_error _); [done|]. by destruct (path_exists fs _).
Qed.

End Records.

(* ===================================================================== *)
(** * Orchestrator: one document                                          *)
(* ===================================================================== *)

Section ProcessHtmlFile.

Variable rd : reader.
Variable worlds : string → world.
Variable stat_error : string → bool.

(** The paths the updates of a list of records work on. *)
Lemma update_each_preserves recs acc :
  preserves_outside (λ q, ∃ rec, rec ∈ recs ∧ own_paths rec.1 q)
    (update_each worlds recs acc).
Proof.
  revert acc. induction recs as [|[p d] recs IH]; intros acc; cbn [update_each].
  - apply preserves_ret.
  - apply preserves_bind.
    + eapply preserves_weaken; [|apply update_image_metadata_preserves].
      intros q Hq. exists (p, d). split; [apply elem_of_cons; by left|done].
    + intros updated. eapply preserves_weaken; [|apply IH].
      intros q (rec & Hin & Hq). exists rec. split; [apply elem_of_cons; by right|done].
Qed.

Lemma update_each_blind recs acc : stdout_blind (update_each worlds recs acc).
Proof.
  revert acc. induction recs as [|[p d] recs IH]; intros acc; cbn [update_each].
  - apply blind_ret.
  - apply blind_bind; [apply update_image_metadata_blind|]. intros updated. apply IH.
Qed.

Lemma update_each_count recs acc s n s' :
  update_each worlds recs acc s = (Ok n, s') →
  acc ≤ n ≤ acc + Z.of_nat (length recs).
Proof.
  revert acc s. induction recs as [|[p d] recs IH]; intros acc s; cbn [update_each].
  - intros [= <- <-]. cbn [length]. lia.
  - unfold mbind, cmd_bind.
    destruct (update_image_metadata (worlds p) p d s) as [[updated|e] s1]; [|done].
    intros H%IH. cbn [length]. destruct updated; lia.
Qed.

(** What [process_html_file] does, by the outcome of its body run after
    the first line is printed. *)
Lemma process_html_file_unfold html_file_path export_root debug s :
  let s0 := State (files s)
              (stdout s ++ [newline +:+ "Processing: " +:+ html_file_path]) in
  process_html_file rd worlds stat_error html_file_path export_root debug s
  = match process_body rd worlds stat_error html_file_path debug s0 with
    | (Ok n, s1) => (Ok n, s1)
    | (Raise e, s1) =>
        (Ok 0, State (files s1)
                 (stdout s1 ++ ["  Error processing file: " +:+ exn_text rd e]))
    end.
Proof.
  cbv zeta. unfold process_html_file, try_except.
  unfold mbind at 1, cmd_bind at 1, cmd_print at 1.
  by destruct (process_body _ _ _ _ _ _) as [[n|e] s1].
Qed.

(** What the body does, by the outcome of the search of the document. *)
Lemma process_body_unfold html_file_path debug s :
  process_body rd worlds stat_error html_file_path debug s
  = match files s !! html_file_path with
    | None => (Raise OSError, s)
    | Some doc =>
        match decode_utf8 rd (content doc) with
        | Raise e => (Raise e, s)
        | Ok html_content =>
            let printed :=
              stdout s
              ++ output (find_images_in_html (files s) stat_error
                           (BeautifulSoup rd html_content) html_file_path debug) in
            match result (find_images_in_html (files s) stat_error
                            (BeautifulSoup rd html_content) html_file_path false) with
            | Raise e => (Raise e, State (files s) printed)
            | Ok recs =>
                match recs with
                | [] =>
                    (Ok 0, State (files s)
                             (printed ++ ["  Warning: No images with dates found in HTML"]))
                | _ :: _ =>
                    update_each worlds recs 0
                      (State (files s)
                         (printed ++ ["  Found " +:+ pretty (length recs) +:+ " image(s)"]))
                end
            end
        end
    end.
Proof.
  unfold process_body, open_read. unfold mbind at 1, cmd_bind at 1.
  destruct (files s !! html_file_path) as [doc|]; [|done].
  destruct (decode_utf8 rd (content doc)) as [html_content|e]; [|done].
  unfold mbind at 1, cmd_bind at 1, cmd_of_io. cbv zeta.
  rewrite (find_images_in_html_result _ _ _ _ debug).
  rewrite (find_images_in_html_result _ _ _ _ false).
  by destruct (_ ≫= _) as [[|rec recs]|e].
Qed.

Lemma found_records_length fs html_file_path :
  (length (found_records rd stat_error fs html_file_path)
   ≤ post_count rd fs html_file_path)%nat.
Proof.
  unfold found_records, post_count.
  destruct (fs !! html_file_path) as [doc|]; [|done].
  destruct (decode_utf8 rd (content doc)) as [html_content|]; [|done].
  rewrite find_images_in_html_result. unfold mbind, res_mbind, res_bind.
  destruct (contributions _ _ _ _) as [per_post|] eqn:E; [|cbn [length]; lia].
  by eapply contributions_length.
Qed.

(** The result and the store after [process_html_file], by the run of
    the updates over the records of the document. *)
Lemma process_html_file_runs_updates html_file_path export_root debug s :
  let out := process_html_file rd worlds stat_error html_file_path export_root debug s in
  let updates :=
    update_each worlds (found_records rd stat_error (files s) html_file_path) 0 s in
  out.1 = Ok (match updates.1 with Ok n => n | Raise _ => 0 end)
  ∧ files out.2 = files updates.2.
Proof.
  cbv zeta. rewrite process_html_file_unfold. cbv zeta.
  rewrite process_body_unfold. unfold found_records. cbn [files].
  destruct (files s !! html_file_path) as [doc|]; [|done].
  destruct (decode_utf8 rd (content doc)) as [html_content|e]; [|done].
  cbv zeta.
  destruct (result _) as [[|rec recs]|e]; [done| |done].
  match goal with
  | |- context [update_each worlds ?l 0 (State (files s) ?o)] =>
      destruct (update_each_blind l 0 s o) as [Hr Hf];
      destruct (update_each worlds l 0 (State (files s) o)) as [[n|e] s1]
  end; cbn [fst snd files] in *; by rewrite <- Hr, <- Hf.
Qed.

(** X13.  [process_html_file] never lets an exception out: it always
    returns a count, at least 0 and at most the number of post containers
    of the document (0 when the document is missing or cannot be
    decoded, or when the search of the document raises). *)
Theorem process_html_file_returns_count (html_file_path export_root : string)
    (debug : bool) (s : state) :
  ∃ n, (process_html_file rd worlds stat_error html_file_path export_root debug s).1 = Ok n
       ∧ 0 ≤ n ≤ Z.of_nat (post_count rd (files s) html_file_path).
Proof.
  destruct (process_html_file_runs_updates html_file_path export_root debug s) as [Hr _].
  eexists. split; [exact Hr|].
  pose proof (found_records_length (files s) html_file_path) as Hlen.
  destruct (update_each worlds _ 0 s) as [[n|e] s1] eqn:E; cbn [fst]; [|lia].
  apply update_each_count in E. lia.
Qed.

(** X14.  When the document is read and searched, the count
    [process_html_file] returns is the one the updates of the found
    records give, run in order from the store as it was; when an
    exception escapes one of those updates the count is 0, and in both
    cases the store is left as the updates left it, the ones done before
    the exception included.  When the reading, the decoding or the search
    raises, the count is 0 and no file is changed. *)
Theorem process_html_file_counts_updates (html_file_path export_root : string)
    (debug : bool) (s : state) :
  let out := process_html_file rd worlds stat_error html_file_path export_root debug s in
  match search_outcome rd stat_error (files s) html_file_path with
  | Ok recs =>
      let updates := update_each worlds recs 0 s in
      out.1 = Ok (match updates.1 with Ok n => n | Raise _ => 0 end)
      ∧ files out.2 = files updates.2
  | Raise _ => out.1 = Ok 0 ∧ files out.2 = files s
  end.
Proof.
  cbv zeta.
  pose proof (process_html_file_runs_updates html_file_path export_root debug s) as H.
  cbv zeta in H. revert H. unfold search_outcome, found_records.
  destruct (files s !! html_file_path) as [doc|]; [|done].
  unfold mbind, res_mbind, res_bind.
  destruct (decode_utf8 rd (content doc)) as [html_content|e]; [|done].
  by destruct (result _) as [recs|e].
Qed.

(** X15.  [process_html_file] changes no file but the images of the
    records it found and their [.backup] siblings; the document itself
    and every other path are left as they were. *)
Theorem process_html_file_touches_found_images (html_file_path export_root : string)
    (debug : bool) (s : state) (q : string) :
  (∀ rec, rec ∈ found_records rd stat_error (files s) html_file_path →
          q ≠ rec.1 ∧ q ≠ rec.1 +:+ ".backup") →
  files (process_html_file rd worlds stat_error html_file_path export_root debug s).2 !! q
  = files s !! q.
Proof.
  intros Hq.
  destruct (process_html_file_runs_updates html_file_path export_root debug s) as [_ ->].
  apply update_each_preserves. intros (rec & Hin & Hown).
  destruct (Hq rec Hin) as [H1 H2]. by destruct Hown.
Qed.

(** X16.  The diagnostic flag changes neither the count [process_html_file]
    returns nor the store it leaves. *)
Theorem process_html_file_debug_blind (html_file_path export_root : string)
    (s : state) :
  (process_html_file rd worlds stat_error html_file_path export_root true s).1
  = (process_html_file rd worlds stat_error html_file_path export_root false s).1
  ∧ files (process_html_file rd worlds stat_error html_file_path export_root true s).2
    = files (process_html_file rd worlds stat_error html_file_path export_root false s).2.
Proof.
  destruct (process_html_file_runs_updates html_file_path export_root true s) as [-> ->].
  by destruct (process_html_file_runs_updates html_file_path export_root false s)
    as [-> ->].
Qed.

End ProcessHtmlFile.

(* ===================================================================== *)
(** * Orchestrator: the run                                               *)
(* ===================================================================== *)

Section Main.

Variable rd : reader.
Variable worlds : string → world.
Variable stat_error : string → bool.
Variable dirs : directories.

Lemma process_html_file_ok html_file_path export_root debug s :
  ∃ n s', process_html_file rd worlds stat_error html_file_path export_root debug s = (Ok n, s').
Proof.
  destruct (process_html_file_runs_updates rd worlds stat_error html_file_path export_root debug s)
    as [Hr _].
  destruct (process_html_file _ _ _ _ _ _ _) as [r s'].
  cbn [fst] in Hr. subst r. by eexists _, _.
Qed.

Lemma process_html_file_blind html_file_path export_root debug :
  stdout_blind (process_html_file rd worlds stat_error html_file_path export_root debug).
Proof.
  intros s o.
  destruct (process_html_file_runs_updates rd worlds stat_error html_file_path export_root debug
              (State (files s) o)) as [-> ->].
  destruct (process_html_file_runs_updates rd worlds stat_error html_file_path export_root debug s)
    as [-> ->].
  cbn [files].
  by destruct (update_each_blind worlds (found_records rd stat_error (files s) html_file_path) 0 s o)
    as [-> ->].
Qed.

(** X17.  An invocation that names no existing path, or a single file
    whose suffix is not [.html] in any letter case, or a directory whose
    listing is empty, changes no file. *)
Theorem main_invocation_error_changes_nothing (args : arguments) (s : state) :
  let path := Pathlib.parts (arg_path args) in
  let path_str := Pathlib.str path in
  (is_dir dirs path_str = false
   ∧ (files s !! path_str = None
      ∨ Chars.lower_str (PathlibMore.suffix path) ≠ ".html"))
  ∨ (is_dir dirs path_str = true
     ∧ glob dirs path_str (if arg_recursive args then "**/*.html" else "*.html") = []) →
  files (main rd worlds stat_error dirs args s).2 = files s.
Proof.
  cbv zeta. intros H. unfold main. cbv zeta. unfold mbind at 1, cmd_bind at 1.
  destruct H as [[Hd H]|[Hd Hg]]; rewrite Hd.
  - cbn [orb negb andb]. rewrite andb_true_r.
    unfold path_exists.
    destruct (files s !! Pathlib.str (Pathlib.parts (arg_path args))) as [f|] eqn:Ef.
    + destruct H as [?|Hsuf]; [done|].
      rewrite bool_decide_true by (by eexists). cbn [negb].
      apply String.eqb_neq in Hsuf. rewrite Hsuf.
      unfold mbind, cmd_bind. by destruct (arg_debug args).
    + rewrite bool_decide_false by (by intros [? ?]). done.
  - cbn [orb negb andb]. rewrite andb_false_r. rewrite Hg.
    unfold mbind, cmd_bind. by destruct (arg_debug args).
Qed.

(** X18.  For a single existing [.html] file, [main] leaves the store
    exactly as [process_html_file] on that file does. *)
Theorem main_single_file (args : arguments) (s : state) (doc : file) :
  let path := Pathlib.parts (arg_path args) in
  let path_str := Pathlib.str path in
  is_dir dirs path_str = false →
  files s !! path_str = Some doc →
  Chars.lower_str (PathlibMore.suffix path) = ".html" →
  files (main rd worlds stat_error dirs args s).2
  = files (process_html_file rd worlds stat_error path_str
             (resolve dirs (Pathlib.str (PathlibMore.parent path)))
             (arg_debug args) s).2.
Proof.
  cbv zeta. intros Hd Hf Hsuf. unfold main. cbv zeta.
  unfold mbind at 1, cmd_bind at 1. rewrite Hd.
  cbn [orb negb andb]. rewrite andb_true_r. unfold path_exists.
  rewrite bool_decide_true by (by eexists). cbn [negb].
  apply String.eqb_eq in Hsuf. rewrite Hsuf.
  unfold mbind at 1, cmd_bind at 1.
  set (root := resolve dirs _).
  assert (∀ s0, files s0 = files s →
            files (main_run rd worlds stat_error
                     [Pathlib.str (Pathlib.parts (arg_path args))] root
                     (arg_debug args) s0).2
            = files (process_html_file rd worlds stat_error
                       (Pathlib.str (Pathlib.parts (arg_path args))) root
                       (arg_debug args) s).2) as Hrun.
  { intros s0 Hs0. unfold main_run. unfold mbind at 1, cmd_bind at 1, cmd_print at 1.
    unfold mbind at 1, cmd_bind at 1. cbn [process_each].
    unfold mbind at 1, cmd_bind at 1.
    match goal with
    | |- context [process_html_file rd worlds stat_error ?p root ?d (State (files s0) ?o)] =>
        destruct (process_html_file_blind p root d s0 o) as [Hr Hfs];
        destruct (process_html_file_ok p root d (State (files s0) o)) as (n & s' & E)
    end.
    rewrite E in *. cbn [fst snd] in *. cbn [mret cmd_ret].
    unfold mbind, cmd_bind, cmd_print. cbn [fst snd files].
    rewrite Hfs.
    destruct s0 as [f0 o0], s as [f1 o1]. cbn [files] in *. subst f0.
    destruct (process_html_file_blind (Pathlib.str (Pathlib.parts (arg_path args)))
                root (arg_debug args) (State f1 o1) o0) as [_ Hfs'].
    cbn [files] in Hfs'. done. }
  destruct (arg_debug args); cbn [cmd_print mret cmd_ret]; by apply Hrun.
Qed.

End Main.

(* ===================================================================== *)
(** * The added properties on concrete inputs                             *)
(* ===================================================================== *)

Lemma update_touches_two_paths_witness :
  files (update_image_metadata failing_save "photo.jpg" sample_date
           store_with_stale_backup).2 !! "notes.txt"
  = files store_with_stale_backup !! "notes.txt".
Proof.
  apply (update_touches_two_paths failing_save "photo.jpg" sample_date
           store_with_stale_backup "notes.txt"); vm_compute; discriminate.
Defined.

Lemma update_success_store_witness :
  ∃ bytes ts,
    files (update_image_metadata working "photo.jpg" sample_date store_with_target).2
    = <["photo.jpg" := File bytes (recorded_time working ts) (recorded_time working ts)]>
        (delete ("photo.jpg" +:+ ".backup") (files store_with_target)).
Proof.
  destruct (update_success_store working "photo.jpg" sample_date store_with_target
              sample_file)
    as (img & d & exif_bytes & bytes & ts & _ & _ & _ & _ & _ & H & _).
  - vm_compute; reflexivity.
  - vm_compute; reflexivity.
  - exists bytes, ts. exact H.
Defined.

Lemma update_success_metadata_witness :
  ∃ d, exif_get d "0th" ImageIFD_DateTime = Some "2021:03:15 10:30:00"
       ∧ exif_get d "Exif" ExifIFD_DateTimeOriginal = Some "2021:03:15 10:30:00"
       ∧ exif_get d "Exif" ExifIFD_DateTimeDigitized = Some "2021:03:15 10:30:00".
Proof.
  destruct (update_success_metadata working "photo.jpg" sample_date store_with_target
              sample_file)
    as (img & d & exif_bytes & bytes & _ & _ & _ & H1 & H2 & H3 & _).
  - vm_compute; reflexivity.
  - vm_compute; reflexivity.
  - exists d. split; [exact H1|]. split; [exact H2|exact H3].
Defined.

Lemma failed_copy_moves_leftover_witness :
  (update_image_metadata failing_copy "photo.jpg" sample_date store_with_stale_backup).1
  = Ok false
  ∧ files (update_image_metadata failing_copy "photo.jpg" sample_date
             store_with_stale_backup).2 !! "photo.jpg" = Some stale_backup.
Proof.
  destruct (failed_copy_moves_leftover failing_copy "photo.jpg" sample_date
              store_with_stale_backup sample_file OSError None) as (H1 & _ & H3).
  - vm_compute; reflexivity.
  - reflexivity.
  - reflexivity.
  - split; [exact H1|]. rewrite H3. vm_compute; reflexivity.
Defined.

Lemma process_html_file_touches_found_images_witness :
  files (process_html_file sample_reader (λ _, working) no_stat_error sample_document_path
           "/home/u/export" false sample_tree).2 !! sample_document_path
  = files sample_tree !! sample_document_path.
Proof.
  apply (process_html_file_touches_found_images sample_reader (λ _, working) no_stat_error
           sample_document_path "/home/u/export" false sample_tree sample_document_path).
  intros rec Hin. apply list_elem_of_In in Hin. vm_compute in Hin.
  destruct Hin as [<-|[]]. split; vm_compute; discriminate.
Defined.

Lemma main_invocation_error_changes_nothing_witness :
  files (main sample_reader (λ _, working) no_stat_error no_directories (Args "photo.jpg" true false)
           store_with_target).2
  = files store_with_target.
Proof.
  apply (main_invocation_error_changes_nothing sample_reader (λ _, working) no_stat_error
           no_directories (Args "photo.jpg" true false) store_with_target).
  left. split; [reflexivity|]. right. vm_compute. discriminate.
Defined.

Lemma main_single_file_witness :
  files (main sample_reader (λ _, working) no_stat_error no_directories
           (Args sample_document_path false false) sample_tree).2
  = files (process_html_file sample_reader (λ _, working) no_stat_error sample_document_path
             "/home/u/export/your_instagram_activity/content" false sample_tree).2.
Proof.
  apply (main_single_file sample_reader (λ _, working) no_stat_error no_directories
           (Args sample_document_path false false) sample_tree
           (File [] 1600000000 1600000000)); vm_compute; reflexivity.
Defined.

Lemma absolute_reference_ignores_root_witness :
  result (post_records {[ "/srv/shared/photo.jpg" := sample_file ]} no_stat_error
            sample_document_path false post_with_absolute_src)
  = Ok [("/srv/shared/photo.jpg", mkdt 2020 1 1 0 0 0)].
Proof.
  rewrite (absolute_reference_ignores_root {[ "/srv/shared/photo.jpg" := sample_file ]}
             no_stat_error sample_document_path false post_with_absolute_src
             "srv/shared/photo.jpg" (mkdt 2020 1 1 0 0 0)).
  - vm_compute; reflexivity.
  - vm_compute; reflexivity.
  - vm_compute; reflexivity.
  - compute_done.
Defined.

Lemma display_format_parses_witness :
  parse_instagram_date "Aug 06, 2012 4:13 pm" = Ok (Some (mkdt 2012 8 6 16 13 0)).
Proof.
  apply (display_format_parses 8 0 6 2 0 1 2 4 false 1 3 true).
  - lia.
  - repeat (constructor; [unfold is_digit_value; lia|]). constructor.
  - lia.
  - reflexivity.
Defined.

Lemma trailing_text_is_refused_witness :
  parse_instagram_date "2024:09:24 15:42:54 UTC" = Ok None.
Proof.
  apply (trailing_text_is_refused 2 0 2 4 0 9 2 4 1 5 4 2 5 4 " UTC");
    try (unfold number2; lia); try discriminate.
  repeat (constructor; [unfold is_digit_value; lia|]). constructor.
Defined.

Lemma any_white_space_separates_witness :
  parse_instagram_date "2024:09:24   15:42:54" = Ok (Some (mkdt 2024 9 24 15 42 54)).
Proof.
  apply (any_white_space_separates 2 0 2 4 0 9 2 4 "   " 1 5 4 2 5 4).
  - repeat (constructor; [unfold is_digit_value; lia|]). constructor.
  - reflexivity.
  - discriminate.
  - reflexivity.
Defined.

Lemma impossible_date_is_refused_witness :
  parse_instagram_date "2021:02:30 10:00:00" = Ok None
  ∧ parse_instagram_date "2016:12:31 23:59:60" = Ok None
  ∧ parse_instagram_date "0000:01:01 00:00:00" = Ok None.
Proof.
  split; [|split].
  - apply (impossible_date_is_refused 2 0 2 1 0 2 3 0 1 0 0 0 0 0);
      try (unfold number2; lia); try reflexivity.
    repeat (constructor; [unfold is_digit_value; lia|]). constructor.
  - apply (impossible_date_is_refused 2 0 1 6 1 2 3 1 2 3 5 9 6 0);
      try (unfold number2; lia); try reflexivity.
    repeat (constructor; [unfold is_digit_value; lia|]). constructor.
  - apply (impossible_date_is_refused 0 0 0 0 0 1 0 1 0 0 0 0 0 0);
      try (unfold number2; lia); try reflexivity.
    repeat (constructor; [unfold is_digit_value; lia|]). constructor.
Defined.
